(* ===== verification/_CoqProject ===== *)
-Q . S2P
Prelude.v
Py.v
Base64.v
Catalog.v
Vision.v
Prober.v
Annotator.v
Driver.v
Codec.v
Reporting.v
