(* ===== verification/Prelude.v ===== *)
(** * A verification development for opencv-demos

    The repository holds two unrelated Python scripts:

    - [src/aruco_marker_detection/app.py]: a class [Aruco] with a catalogue
      [ARUCO_DICT] of the 21 ArUco/AprilTag dictionaries of OpenCV, a prober
      [findArucoTYPE] that tries each dictionary in catalogue order on an
      image and reports the first one under which a marker is detected, an
      annotator [findArucoMarkers] that re-runs detection with the dictionary
      named [DICT_{size}X{size}_{total}], draws the outlines, the centre and
      the id of the markers and base64-encodes the image buffer, a driver
      [findAruco] that reads an image and loops "frame by frame" calling the
      two, and a top-level script (lines 131-135) that calls the driver and
      unpacks its result into three variables.
    - [src/image_encode_decode/encode_decode.py]: a script that reads a file,
      base64-encodes it with [base64.encodebytes], decodes it back with
      [base64.decodebytes] and writes the result to a second file.

    ** Files, in dependency order

    - [Prelude] (this file): a state-and-exception monad [SE] with its
      notation in [se_scope] and its frame properties [se_preserves] (a
      preorder between the states before and after, kept by every bind and
      catch) and its triples [se_spec] (what a computation may return and
      raise, one rule per construct), the hint database [pyrt], the tactics of the development
      ([se_step] and [se_call] run a bind, [zcompute] evaluates closed
      integer subterms) and the generic lemmas on bits, lists and integer
      division the components share.
    - [Py]: the Python runtime the scripts run on: exception classes, the
      values that reach [print], numpy arrays, the world (standard output,
      file system, object heap, pending key presses) and the monad
      [M := SE world raised]; the [try]/[except] of the scripts with the
      traceback line number they print; [str.split], [str(int)], f-string
      formatting, list indexing and tuple unpacking with Python's errors;
      [keeps_heap], the statements that leave the heap of objects alone.
    - [Base64]: the library the scripts call: CPython's [binascii.b2a_base64]
      (the bit-accumulator loop) and [binascii.a2b_base64] (the non-strict
      decoder with its padding rules), [base64.encodebytes] (57-byte lines),
      [base64.decodebytes], the removed [base64.encodestring] and the buffer
      check [_input_type_check].  Theorems: two iterations of the inner
      loop are enough ([b2a_drain_exits]); the accumulator encoder computes
      the RFC 4648 group-of-three encoding [rfc_encode] ([b2a_base64_rfc]);
      [decodebytes] inverts [encodebytes] on every byte string
      ([a2b_encode_lines], [decodebytes_encodebytes]); four characters per
      started group of three bytes ([rfc_encode_length]).  This is library
      code, not code of the repository: the claims about the scripts use
      these theorems.
    - [Catalog]: the OpenCV enumeration [PREDEFINED_DICTIONARY_NAME], the
      attribute lookup [getattr(cv2.aruco, name)], and [Aruco.__init__]
      building [ARUCO_DICT] from its dict literal with Python's insertion
      semantics.  Theorem: each key of the catalogue resolves, through
      [getattr], to the value the dict literal stores under it.
    - [Vision]: the interface [Cv2] of the OpenCV calls the scripts make
      (imread decoding, cvtColor, Dictionary_get, DetectorParameters_create,
      detectMarkers, drawDetectedMarkers, circle, putText) and the laws
      [Cv2Laws] the client theorems rely on; a small test double [toy_cv2]
      that satisfies them, used by the witnesses.
    - [Prober]: [findArucoTYPE]. Theorems: refinement to a pure first-match
      specification; first match wins; error recovery; the no-match path
      returns [None].
    - [Annotator]: [findArucoMarkers]. Theorems: the dictionary key resolves
      exactly for sizes 4..7 and totals 50/100/250/1000; the centre
      computation; only the first marker is annotated; with at least one
      marker the call always ends in the [except] branch because
      [base64.encodestring] rejects the 3-D image buffer; a size and total
      that name no dictionary are reported as ["Internal error"].
    - [Driver]: [findAruco], its loop body, and the top-level script.
      Theorems: one iteration of the loop body on a catalogue name found by
      the prober (the size [str(n)] it derives and the annotator call with
      the literal total 250 of line 114), [findAruco] always returns the
      two-element tuple [(False, "Internal error")] because an image array
      has no [read] method, and the script then dies unpacking it.  The loop
      is also modelled for any object with [read]/[release] (the class
      [Capture]): even with frames that read, its first iteration returns
      the 500 tuple or breaks, so [(True, resp, 200)] is unreachable.
      [toy_capture] is a test double.
    - [Codec]: the script [encode_decode.py] run against a file system.
      Theorems: the written file equals the read file, the printed text is
      the [encodebytes] encoding of it and the printed count its length; a
      missing input file stops the script before anything is written.
    - [Reporting]: triples [se_spec] on what the methods return and
      raise, proved statement by statement by [spec_solve]: the annotator
      never lets an exception out and reports a line of its [try] body;
      an exception leaving the loop is one of the five the loop body
      itself can raise, none from inside the prober, the annotator or
      [cv2.waitKey].

    ** Modelling choices

    - Python exceptions are values of [Py.exn] carried by the monad together
      with the line of the frame where they passed ([r_line]); each
      [try]/[except Exception] of the source is [Py.try_except] and prints
      what the source prints ([exc_type, "app.py", tb_lineno]).
    - OpenCV is not modelled: its calls are the fields of the class
      [Vision.Cv2], and theorems that depend on its behaviour take the laws
      of [Vision.Cv2Laws] as hypotheses.  Corner coordinates are rationals
      ([Q]); [int()] of a float truncates toward zero ([Z.quot]).
    - numpy arrays carry their shape, element type and flat data; an image
      passed to [findArucoMarkers] is an object of the heap [w_heap], so the
      in-place drawing the source does is visible to its caller.
    - Integers of C code (the base64 accumulator) are kept at their width:
      [leftchar] is an unsigned 32-bit value, reduced modulo [2^32].
    - Fuel: [str.split] recurses with fuel [length s + 1] (proved enough);
      the [while True] loop of [findAruco] takes an explicit fuel, the
      number of frames it may process; with the real [cv2.imread] one unit
      is enough because the first iteration raises, and for any capture one
      unit is enough because the first iteration never continues
      ([aruco_loop_stops]).  The inner loop of [b2a_base64] has fuel 2,
      proved enough by [b2a_drain_exits].

    ** The claims

    C1-C3 (Prober): refinement of the first-match specification, first
    match wins, the no-match path returns [None].  C4 (Catalog): keys
    resolve to their values.  C5-C8, C14 and C16 (Annotator): the key of
    line 61, the centre, no success on an image buffer, the
    first-marker-only annotation, configuration errors, the [None]
    returned when nothing is detected.  C9-C11, C15 and C17 (Driver):
    failure at [cap.read()], the crash of the script, the loop body on a
    name the prober found (derived size, total 250), the loop never
    succeeding for any capture, the loop decided by its first iteration.
    C12-C13 (Codec): the round trip writes back the input bytes; a missing
    input stops the script at line 10.  C18-C19 (Reporting): what the
    [except] branches report, and the exceptions that can leave the
    loop.

    ** Not modelled

    Image decoding, marker detection and drawing (OpenCV internals, the
    interface [Vision.Cv2] with its laws stands for them), the GUI calls
    [waitKey]/[destroyAllWindows] beyond the key they return, directories
    and permissions of the file system (so [open(..., 'wb')] of
    [encode_decode.py] never fails in the model), the buffering and closing
    of the output file (written at once), the Python interpreter itself
    (the runtime of [Py] is modelled from Python's documented behaviour),
    and the text of the [DeprecationWarning]s that Python may print.  The
    lines of the sources left out of the map are imports, comments, blank
    lines and [warnings.filterwarnings("ignore")], which has no effect the
    model can observe. *)

From stdpp Require Export base list strings gmap.
From Stdlib Require Export ZArith Lia.

(** ** A state and exception monad *)

(** [SE S E A]: a computation over a state [S] that returns an [A] or
    raises an [E]; the state reached when an exception is raised is kept,
    as side effects are not rolled back in Python. *)
Definition SE (S E A : Type) : Type := S -> (E + A) * S.

Section SE.
Context {S E : Type}.

Definition se_ret {A} (a : A) : SE S E A := fun s => (inr a, s).

Definition se_bind {A B} (m : SE S E A) (k : A -> SE S E B) : SE S E B :=
  fun s => match m s with
           | (inl e, s') => (inl e, s')
           | (inr a, s') => k a s'
           end.

Definition se_raise {A} (e : E) : SE S E A := fun s => (inl e, s).

Definition se_catch {A} (m : SE S E A) (h : E -> SE S E A) : SE S E A :=
  fun s => match m s with
           | (inl e, s') => h e s'
           | r => r
           end.

Definition se_get : SE S E S := fun s => (inr s, s).

Definition se_modify (f : S -> S) : SE S E unit := fun s => (inr tt, f s).

(** Lift a fallible pure result. *)
Definition se_lift {A} (r : E + A) : SE S E A := fun s => (r, s).

Lemma se_bind_ok {A B} (m : SE S E A) (k : A -> SE S E B) s a s' :
  m s = (inr a, s') -> se_bind m k s = k a s'.
Proof. unfold se_bind. by intros ->. Qed.

Lemma se_bind_err {A B} (m : SE S E A) (k : A -> SE S E B) s e s' :
  m s = (inl e, s') -> se_bind m k s = (inl e, s').
Proof. unfold se_bind. by intros ->. Qed.

Lemma se_catch_ok {A} (m : SE S E A) h s a s' :
  m s = (inr a, s') -> se_catch m h s = (inr a, s').
Proof. unfold se_catch. by intros ->. Qed.

Lemma se_catch_err {A} (m : SE S E A) h s e s' :
  m s = (inl e, s') -> se_catch m h s = h e s'.
Proof. unfold se_catch. by intros ->. Qed.

Lemma se_bind_assoc {A B C} (m : SE S E A) (k : A -> SE S E B)
      (k' : B -> SE S E C) s :
  se_bind (se_bind m k) k' s = se_bind m (fun a => se_bind (k a) k') s.
Proof. unfold se_bind. by destruct (m s) as [[e|a] s']. Qed.
End SE.

Declare Scope se_scope.
Delimit Scope se_scope with se.
Notation "x <- m ;; k" := (se_bind m (fun x => k))
  (at level 97, m at next level, right associativity) : se_scope.
Notation "m ;;; k" := (se_bind m (fun _ => k))
  (at level 97, right associativity) : se_scope.

(** ** Hint database and tactics *)

Create HintDb pyrt discriminated.
Create Rewrite HintDb pyrt.

(** What a computation may return and what it may raise, whatever the
    state: a triple without precondition, with one rule per construct. *)
Section Spec.
Context {S E : Type}.

Definition se_spec {A} (Q : A -> Prop) (R : E -> Prop) (m : SE S E A) : Prop :=
  forall s r s', m s = (r, s') -> match r with inl e => R e | inr a => Q a end.

Lemma se_spec_ret {A} (Q : A -> Prop) R a : Q a -> se_spec Q R (se_ret a).
Proof. intros Ha s r s' [= <- _]. exact Ha. Qed.

Lemma se_spec_raise {A} (Q : A -> Prop) (R : E -> Prop) e : R e -> se_spec Q R (se_raise e).
Proof. intros He s r s' [= <- _]. exact He. Qed.

Lemma se_spec_modify (Q : unit -> Prop) R f : Q tt -> se_spec Q R (se_modify f).
Proof. by intros Hq s r s' [= <- _]. Qed.

Lemma se_spec_get (Q : S -> Prop) R : (forall s, Q s) -> se_spec Q R se_get.
Proof. intros Hq s r s' [= <- _]. apply Hq. Qed.

Lemma se_spec_bind {A B} (Q : B -> Prop) R (m : SE S E A) (k : A -> SE S E B) :
  se_spec (fun _ => True) R m -> (forall a, se_spec Q R (k a)) -> se_spec Q R (se_bind m k).
Proof.
  intros Hm Hk s r s'. unfold se_bind.
  destruct (m s) as [[e|a] s1] eqn:E1; intros Hr.
  - injection Hr as <- _. exact (Hm _ _ _ E1).
  - exact (Hk a _ _ _ Hr).
Qed.
End Spec.

(** A relation between the states before and after a computation, kept by
    every step of it: a frame property such as "the heap is unchanged". *)
Section Preserves.
Context {S E : Type} (R : relation S) `{!PreOrder R}.

Definition se_preserves {A} (m : SE S E A) : Prop :=
  forall s r s', m s = (r, s') -> R s s'.

Lemma se_preserves_ret {A} (a : A) : se_preserves (se_ret a).
Proof. intros s r s' [= _ <-]. reflexivity. Qed.

Lemma se_preserves_raise {A} (e : E) : se_preserves (A:=A) (se_raise e).
Proof. intros s r s' [= _ <-]. reflexivity. Qed.

Lemma se_preserves_get : se_preserves se_get.
Proof. intros s r s' [= _ <-]. reflexivity. Qed.

Lemma se_preserves_lift {A} (r : E + A) : se_preserves (se_lift r).
Proof. intros s r' s' [= _ <-]. reflexivity. Qed.

Lemma se_preserves_modify f : (forall s, R s (f s)) -> se_preserves (se_modify f).
Proof. intros Hf s r s' [= _ <-]. apply Hf. Qed.

Lemma se_preserves_bind {A B} (m : SE S E A) (k : A -> SE S E B) :
  se_preserves m -> (forall a, se_preserves (k a)) -> se_preserves (se_bind m k).
Proof.
  intros Hm Hk s r s'. unfold se_bind.
  destruct (m s) as [[e|a] s1] eqn:E1; intros Hr.
  - injection Hr as _ <-. exact (Hm _ _ _ E1).
  - etransitivity; [exact (Hm _ _ _ E1) | exact (Hk a _ _ _ Hr)].
Qed.

Lemma se_preserves_catch {A} (m : SE S E A) h :
  se_preserves m -> (forall e, se_preserves (h e)) -> se_preserves (se_catch m h).
Proof.
  intros Hm Hh s r s'. unfold se_catch.
  destruct (m s) as [[e|a] s1] eqn:E1; intros Hr.
  - etransitivity; [exact (Hm _ _ _ E1) | exact (Hh e _ _ _ Hr)].
  - injection Hr as _ <-. exact (Hm _ _ _ E1).
Qed.
End Preserves.

#[export] Hint Resolve se_preserves_ret se_preserves_raise se_preserves_get se_preserves_lift
  se_preserves_bind se_preserves_catch : pyrt.


(** Step a computation through its binds and catches, given the results of
    the sub-computations as hypotheses. *)
Ltac se_run :=
  repeat first
    [ progress cbn [se_bind se_ret se_raise se_catch se_get se_modify se_lift]
    | match goal with
      | H : ?m ?s = (inr _, _) |- context [match ?m ?s with _ => _ end] =>
          rewrite H
      | H : ?m ?s = (inl _, _) |- context [match ?m ?s with _ => _ end] =>
          rewrite H
      end ].

(** Run the first computation of a bind, naming its outcome. *)
Ltac se_step E a s' :=
  match goal with
  | |- context [se_bind ?m ?k ?s] =>
      let e := fresh "e" in
      destruct (m s) as [[e|a] s'] eqn:E;
      [rewrite (se_bind_err m k s e s' E) | rewrite (se_bind_ok m k s a s' E)]
  end.

(** The same for a first computation under a [try] or an [at_line]. *)
Ltac se_call E a s' :=
  match goal with
  | |- context [se_bind (se_catch ?m ?h) ?k ?s] =>
      let e := fresh "e" in
      destruct (m s) as [[e|a] s'] eqn:E;
      [erewrite (se_bind_err _ k s); [|by rewrite (se_catch_err m h s e s' E)]
      | rewrite (se_bind_ok _ k s a s' (se_catch_ok m h s a s' E))]
  end.

(** ** Bits of small integers *)

Local Open Scope Z_scope.

Lemma testbit_small y n i :
  0 <= y < 2 ^ n -> n <= i -> Z.testbit y i = false.
Proof.
  intros [Hy Hn] Hi. destruct (Z.eq_dec y 0) as [->|Hy0]; [apply Z.testbit_0_l|].
  apply Z.bits_above_log2; [lia|].
  assert (Z.log2 y < n); [apply Z.log2_lt_pow2; lia | lia].
Qed.

(** A value below [2^n] or'ed into the zero low bits of [x * 2^n]. *)
Lemma lor_shiftl_add x y n :
  0 <= n -> 0 <= y < 2 ^ n -> Z.lor (Z.shiftl x n) y = Z.shiftl x n + y.
Proof.
  intros Hn Hy.
  assert (Hd : Z.land (Z.shiftl x n) y = 0).
  { apply Z.bits_inj'. intros i Hi. rewrite Z.land_spec, Z.bits_0.
    destruct (Z.lt_ge_cases i n).
    - by rewrite Z.shiftl_spec_low.
    - rewrite (testbit_small y n i); [apply andb_false_r | done | lia]. }
  rewrite Z.add_nocarry_lxor by exact Hd. by rewrite Z.lxor_lor.
Qed.

(** [Z.land a m] with [m = 2^n - 1] keeps the [n] low bits. *)
Lemma land_mask_mod a m :
  0 <= m -> m + 1 = 2 ^ Z.log2 (m + 1) -> Z.land a m = a mod (m + 1).
Proof.
  intros Hm Hp. rewrite Hp.
  replace m with (Z.ones (Z.log2 (m + 1))) at 1.
  - apply Z.land_ones, Z.log2_nonneg.
  - rewrite Z.ones_equiv. lia.
Qed.

(** Rewrite shifts and masks by constants into multiplication, division and
    modulo, so that [lia] finishes. *)
Ltac bits_to_arith :=
  repeat match goal with
    | |- context [Z.lor (Z.shiftl ?x ?n) ?y] =>
        rewrite (lor_shiftl_add x y n) by (cbn; lia)
    | |- context [Z.land ?a ?m] =>
        rewrite (land_mask_mod a m) by (lia || reflexivity)
    | |- context [Z.shiftl ?x ?n] =>
        rewrite (Z.shiftl_mul_pow2 x n) by lia
    | |- context [Z.shiftr ?x ?n] =>
        rewrite (Z.shiftr_div_pow2 x n) by lia
    end; cbn [Z.pow Z.pow_pos Pos.iter Z.mul Pos.mul Z.add Pos.add] in *.

(** A byte is an integer in [0, 256). *)
Definition is_byte (b : Z) : bool := (0 <=? b) && (b <? 256).

Lemma is_byte_spec b : is_byte b = true <-> 0 <= b < 256.
Proof. unfold is_byte. rewrite andb_true_iff, Z.leb_le, Z.ltb_lt. done. Qed.

Definition bytes_ok (bs : list Z) : Prop := Forall (fun b => 0 <= b < 256) bs.

Lemma bytes_ok_app bs1 bs2 : bytes_ok (bs1 ++ bs2) <-> bytes_ok bs1 /\ bytes_ok bs2.
Proof. apply Forall_app. Qed.

#[export] Hint Resolve -> bytes_ok_app : pyrt.
#[export] Hint Resolve <- bytes_ok_app : pyrt.
#[export] Hint Rewrite Z.lor_0_r Z.lor_0_l Z.land_0_l Z.shiftl_0_l Z.shiftr_0_l : pyrt.

(** ** Strings

    stdpp makes [String.append] opaque to [simpl] and [cbn]; these two
    equations are its definition. *)

Lemma str_app_nil (s : string) : ("" ++ s)%string = s.
Proof. reflexivity. Qed.

Lemma str_app_cons c (s1 s2 : string) :
  (String c s1 ++ s2)%string = String c (s1 ++ s2)%string.
Proof. reflexivity. Qed.

#[export] Hint Rewrite str_app_nil str_app_cons : pyrt.

Lemma str_length_app (s1 s2 : string) :
  String.length (s1 ++ s2)%string = (String.length s1 + String.length s2)%nat.
Proof. induction s1 as [|c s1 IH]; [done|]. rewrite str_app_cons. cbn. by rewrite IH. Qed.

(** ** Integer arithmetic *)

Local Open Scope Z_scope.

(** The bits [s .. s+w-1] of [x]. *)
Lemma div_pow2_mod x s w :
  0 <= s -> 0 <= w -> (x / 2 ^ s) mod 2 ^ w = (x mod 2 ^ (s + w)) / 2 ^ s.
Proof.
  intros Hs Hw. rewrite Z.pow_add_r, Z.rem_mul_r by lia.
  rewrite Z.add_comm, Z.mul_comm, Z.div_add_l by lia.
  rewrite (Z.div_small (x mod 2 ^ s)); [lia|]. apply Z.mod_pos_bound. lia.
Qed.

(** Shifting a byte in: the low [m] bits of [y * 256 + b]. *)
Lemma mod_pow2_shift_byte y b m :
  8 <= m -> 0 <= b < 256 -> (y * 256 + b) mod 2 ^ m = (y mod 2 ^ (m - 8)) * 256 + b.
Proof.
  intros Hm Hb. replace (2 ^ m) with (256 * 2 ^ (m - 8)).
  - rewrite Z.rem_mul_r by lia.
    assert (E1 : (y * 256 + b) mod 256 = b).
    { rewrite Z.add_comm, Z.mod_add by lia. apply Z.mod_small. lia. }
    assert (E2 : (y * 256 + b) / 256 = y).
    { rewrite Z.div_add_l, Z.div_small by lia. lia. }
    rewrite E1, E2. lia.
  - change 256 with (2 ^ 8). rewrite <- Z.pow_add_r by lia. f_equal. lia.
Qed.

Lemma mod_pow2_mod_pow2 x m n :
  0 <= m <= n -> (x mod 2 ^ n) mod 2 ^ m = x mod 2 ^ m.
Proof.
  intros Hmn. apply Z.mod_mod_divide. exists (2 ^ (n - m)).
  rewrite <- Z.pow_add_r by lia. f_equal. lia.
Qed.

(** Induction over a list by groups of three, the way base64 reads it. *)
Lemma list3_ind {A} (P : list A -> Prop) :
  P [] -> (forall a, P [a]) -> (forall a b, P [a; b]) ->
  (forall a b c r, P r -> P (a :: b :: c :: r)) -> forall l, P l.
Proof.
  intros H0 H1 H2 H3 l. remember (length l) as n eqn:En.
  revert l En. induction n as [n IH] using (well_founded_induction lt_wf).
  intros [|a [|b [|c r]]] En; auto. apply H3, (IH (length r)); cbn in *; [lia | done].
Qed.

(** stdpp makes [Z.add], [Z.pow] and the like opaque to [simpl]: evaluate
    the integer operations and comparisons applied to numerals in the goal
    and the hypotheses by computation. *)
Ltac is_pos p := lazymatch p with xH => idtac | xO ?q => is_pos q | xI ?q => is_pos q end.
Ltac is_zlit t := lazymatch t with Z0 => idtac | Zpos ?p => is_pos p | Zneg ?p => is_pos p end.
Ltac is_zop f :=
  lazymatch f with
  | Z.add => idtac | Z.sub => idtac | Z.mul => idtac | Z.pow => idtac | Z.leb => idtac
  | Z.ltb => idtac | Z.eqb => idtac | Z.div => idtac | Z.modulo => idtac
  end.

Ltac zcompute :=
  repeat match goal with
    | |- context [?f ?a ?b] =>
        is_zop f; is_zlit a; is_zlit b;
        let v := eval vm_compute in (f a b) in change (f a b) with v
    | H : context [?f ?a ?b] |- _ =>
        is_zop f; is_zlit a; is_zlit b;
        let v := eval vm_compute in (f a b) in change (f a b) with v in H
    end; cbn iota beta in *.
