(* ===== verification/Py.v ===== *)
(** * The Python runtime the two scripts run on

    Exceptions, the values the scripts print, numpy arrays, the world the
    scripts act on (standard output, files, the object heap, pending key
    presses) and the monad [M] of Python statements; the [try]/[except] of
    the scripts with the line number their handlers print; the built-in
    operations the scripts use on strings, lists and tuples, with the
    exception Python raises when each one fails; and [keeps_heap], the frame
    property of the statements that leave the object heap alone. *)

From S2P Require Import Prelude.
From Stdlib Require Import QArith DecimalString DecimalZ DecimalPos.

Local Open Scope Z_scope.
Local Open Scope se_scope.

(** ** Exceptions *)

(** The built-in exception classes the scripts can raise, and [cv2.error]
    and [binascii.Error] of the two libraries. *)
Inductive exn_kind :=
| TypeError | ValueError | IndexError | AttributeError | UnboundLocalError
| FileNotFoundError | BinasciiError | Cv2Error | SystemError.

#[export] Instance exn_kind_eq_dec : EqDecision exn_kind.
Proof. solve_decision. Defined.

Record exn := Exn { exn_type : exn_kind; exn_msg : string }.

(** An exception in flight, with [tb_lineno]: the line of the current frame
    the exception passed through. *)
Record raised := Raised { r_exn : exn; r_line : Z }.

(** ** Values *)

Inductive dtype := uint8 | int32 | float32.

#[export] Instance dtype_eq_dec : EqDecision dtype.
Proof. solve_decision. Defined.

(** A numpy array: its shape, element type and elements in row-major
    order. *)
Record ndarray := NdArray { nd_shape : list Z; nd_dtype : dtype; nd_data : list Z }.

(** The values that reach [print]. *)
Inductive pyval :=
| PNone
| PBool (b : bool)
| PInt (z : Z)
| PStr (s : string)
| PBytes (bs : list Z)
| PArray (a : ndarray)
| PExcType (k : exn_kind).

(** A tuple returned by a function, of any length. *)
Definition tuple := list pyval.

(** ** The world *)

(** [w_out]: the argument lists of the [print] calls made so far;
    [w_fs]: the contents of the files; [w_heap]: the numpy arrays the
    scripts hold references to; [w_keys]: the key presses [cv2.waitKey] will
    report. *)
Record world := World {
  w_out : list (list pyval);
  w_fs : gmap string (list Z);
  w_heap : gmap positive ndarray;
  w_keys : list Z
}.

Definition set_out (o : list (list pyval)) (w : world) : world :=
  World o (w_fs w) (w_heap w) (w_keys w).
Definition set_fs (f : gmap string (list Z)) (w : world) : world :=
  World (w_out w) f (w_heap w) (w_keys w).
Definition set_heap (h : gmap positive ndarray) (w : world) : world :=
  World (w_out w) (w_fs w) h (w_keys w).
Definition set_keys (k : list Z) (w : world) : world :=
  World (w_out w) (w_fs w) (w_heap w) k.

(** A statement of the scripts. *)
Definition M (A : Type) : Type := SE world raised A.

Definition throw {A} (k : exn_kind) (msg : string) : M A :=
  se_raise (Raised (Exn k msg) 0).

(** A library call that returns a value or raises. *)
Definition lift {A} (r : exn + A) : M A :=
  match r with
  | inl e => se_raise (Raised e 0)
  | inr a => se_ret a
  end.

(** The statement at line [l] of the current frame: an exception passing
    through it carries [l] as its [tb_lineno]. *)
Definition at_line {A} (l : Z) (m : M A) : M A :=
  se_catch m (fun r => se_raise (Raised (r_exn r) l)).

(** [try: body except Exception as e: handler]. *)
Definition try_except {A} (body : M A) (handler : raised -> M A) : M A :=
  se_catch body handler.

(** [print(a1, ..., an)]. *)
Definition print (args : list pyval) : M unit :=
  se_modify (fun w => set_out (w_out w ++ [args]) w).

(** The three statements the handlers of [app.py] share:
    [exc_type, exc_obj, exc_tb = sys.exc_info()],
    [fname = os.path.split(exc_tb.tb_frame.f_code.co_filename)[1]],
    [print(exc_type, fname, exc_tb.tb_lineno)]. *)
Definition print_exc_info (r : raised) : M unit :=
  print [PExcType (exn_type (r_exn r)); PStr "app.py"; PInt (r_line r)].

(** ** The heap of numpy arrays *)

Definition alloc (a : ndarray) : M positive :=
  w <- se_get ;;
  let p := fresh (dom (w_heap w)) in
  se_modify (set_heap (<[p:=a]> (w_heap w))) ;;;
  se_ret p.

(** Every reference the scripts hold was allocated; the [SystemError]
    branch is never taken (see [load_alloc]). *)
Definition load (p : positive) : M ndarray :=
  w <- se_get ;;
  match w_heap w !! p with
  | Some a => se_ret a
  | None => throw SystemError "dangling reference"
  end.

Definition store (p : positive) (a : ndarray) : M unit :=
  se_modify (fun w => set_heap (<[p:=a]> (w_heap w)) w).

(** ** Files *)

(** [open(path, 'rb').read()]. *)
Definition read_file (path : string) : M (list Z) :=
  w <- se_get ;;
  match w_fs w !! path with
  | Some bs => se_ret bs
  | None => throw FileNotFoundError
              ("[Errno 2] No such file or directory: '" ++ path ++ "'")%string
  end.

(** [open(path, 'wb')]: creates or truncates the file. *)
Definition open_write (path : string) : M unit :=
  se_modify (fun w => set_fs (<[path:=[]]> (w_fs w)) w).

(** [f.write(data)] on a file opened with [open_write]: appends and returns
    the number of bytes written. *)
Definition write_file (path : string) (data : list Z) : M Z :=
  se_modify (fun w => set_fs (<[path:=default [] (w_fs w !! path) ++ data]> (w_fs w)) w) ;;;
  se_ret (Z.of_nat (length data)).

(** A fresh object holds what was allocated. *)
Lemma load_alloc a w :
  exists p w', alloc a w = (inr p, w') /\ load p w' = (inr a, w').
Proof.
  unfold alloc, load, se_bind, se_get, se_modify, se_ret. cbn.
  eexists _, _. split; [done|]. cbn. by rewrite lookup_insert_eq.
Qed.

(** ** Numbers *)

(** [int(x)] of a float: truncation toward zero. *)
Definition py_int_of_float (q : Q) : Z := Z.quot (Qnum q) (Zpos (Qden q)).

(** [str(z)] of an int: its decimal writing, with a minus sign. *)
Definition py_str_int (z : Z) : string := NilZero.string_of_int (Z.to_int z).

(** [int(s)] of a string of decimal digits. *)
Definition py_parse_int (s : string) : option Z :=
  Z.of_int <$> NilZero.int_of_string s.

(** The arguments the f-strings of the scripts format: an int or a
    string. *)
Inductive scalar := SInt (z : Z) | SStr (s : string).

Definition py_format (x : scalar) : string :=
  match x with
  | SInt z => py_str_int z
  | SStr s => s
  end.

(** ** Strings *)

Local Open Scope string_scope.

(** [Some rest] when [s] starts with [p] and goes on with [rest]. *)
Fixpoint strip_prefix (p s : string) : option string :=
  match p, s with
  | EmptyString, _ => Some s
  | String a p', String b s' => if Ascii.ascii_dec a b then strip_prefix p' s' else None
  | String _ _, EmptyString => None
  end.

(** CPython's [s.split(sep)] for a non-empty [sep]: the pieces between the
    non-overlapping occurrences of [sep], found from the left. *)
Fixpoint split_go (fuel : nat) (sep s : string) : list string :=
  match fuel with
  | O => [s]
  | S fuel' =>
      match s with
      | EmptyString => [EmptyString]
      | String c s' =>
          match strip_prefix sep s with
          | Some rest => EmptyString :: split_go fuel' sep rest
          | None =>
              match split_go fuel' sep s' with
              | p :: ps => String c p :: ps
              | [] => [s]
              end
          end
      end
  end.

Definition py_split (s sep : string) : M (list string) :=
  match sep with
  | EmptyString => throw ValueError "empty separator"
  | _ => se_ret (split_go (S (String.length s)) sep s)
  end.

(** [l[i]] on a list, with Python's negative indices. *)
Definition py_getitem {A} (l : list A) (i : Z) : M A :=
  let j := (if i <? 0 then Z.of_nat (length l) + i else i)%Z in
  match (if (j <? 0)%Z then None else l !! Z.to_nat j) with
  | Some a => se_ret a
  | None => throw IndexError "list index out of range"
  end.

(** [a, b = v] where [v] is a pair or [None]. *)
Definition unpack2 {A B} (v : option (A * B)) : M (A * B) :=
  match v with
  | Some ab => se_ret ab
  | None => throw TypeError "cannot unpack non-iterable NoneType object"
  end.

(** [a, b, c = t] for a tuple [t]. *)
Definition unpack3 (t : tuple) : M (pyval * pyval * pyval) :=
  match t with
  | [a; b; c] => se_ret (a, b, c)
  | _ =>
      if (length t <? 3)%nat
      then throw ValueError ("not enough values to unpack (expected 3, got "
                             ++ py_str_int (Z.of_nat (length t)) ++ ")")
      else throw ValueError "too many values to unpack (expected 3)"
  end.

(** ** Lemmas on the runtime *)

Lemma strip_prefix_spec p s rest :
  strip_prefix p s = Some rest <-> s = p ++ rest.
Proof.
  revert s. induction p as [|a p IH]; intros [|b s];
    cbn [strip_prefix]; autorewrite with pyrt; try (split; congruence).
  destruct (Ascii.ascii_dec a b) as [->|Hne].
  - rewrite IH. split; [by intros -> | by intros [=]].
  - split; [done | by intros [=]].
Qed.

Lemma strip_prefix_length p s rest :
  strip_prefix p s = Some rest -> String.length s = (String.length p + String.length rest)%nat.
Proof. intros ->%strip_prefix_spec. apply str_length_app. Qed.

Lemma split_go_nonempty fuel sep s : split_go fuel sep s <> [].
Proof.
  revert s. induction fuel as [|f IH]; intros [|c s]; cbn; try done.
  destruct (strip_prefix sep _); [done|]. by destruct (split_go f sep s).
Qed.

(** The fuel [length s + 1] of [py_split] is enough: more fuel gives the
    same pieces. *)
Lemma split_go_fuel sep s n m :
  sep <> EmptyString -> (String.length s < n)%nat -> (n <= m)%nat ->
  split_go m sep s = split_go n sep s.
Proof.
  intros Hsep. revert s m. induction n as [|n IH]; intros s m Hs Hm; [lia|].
  destruct m as [|m]; [lia|]. destruct s as [|c s]; cbn; [done|].
  destruct (strip_prefix sep (String c s)) as [rest|] eqn:E.
  - apply strip_prefix_length in E. destruct sep; [done|].
    cbn in E, Hs. rewrite (IH rest m); [done|lia|lia].
  - cbn in Hs. rewrite (IH s m); [done|lia|lia].
Qed.

Lemma concat_cons sep x l :
  l <> [] -> String.concat sep (x :: l) = (x ++ sep ++ String.concat sep l)%string.
Proof. by destruct l. Qed.

Lemma concat_head sep c p ps :
  String.concat sep (String c p :: ps) = String c (String.concat sep (p :: ps)).
Proof. destruct ps; [done|]. cbn. by rewrite str_app_cons. Qed.

(** [sep.join(s.split(sep)) == s]. *)
Lemma split_go_join sep s n :
  sep <> EmptyString -> (String.length s < n)%nat ->
  String.concat sep (split_go n sep s) = s.
Proof.
  intros Hsep. revert s. induction n as [|n IH]; intros s Hs; [lia|].
  destruct s as [|c s]; cbn; [done|].
  destruct (strip_prefix sep (String c s)) as [rest|] eqn:E.
  - pose proof (strip_prefix_length _ _ _ E) as Hl.
    apply strip_prefix_spec in E.
    destruct sep as [|a sep]; [done|].
    rewrite concat_cons, IH by (apply split_go_nonempty || (cbn in Hs, Hl; lia)).
    by rewrite str_app_nil, E.
  - cbn in Hs. specialize (IH s ltac:(lia)).
    pose proof (split_go_nonempty n sep s) as Hne.
    destruct (split_go n sep s) as [|p ps]; [done|].
    by rewrite concat_head, IH.
Qed.

(** [int(str(z)) == z]. *)
Lemma py_parse_str_int z : py_parse_int (py_str_int z) = Some z.
Proof.
  unfold py_parse_int, py_str_int. rewrite NilZero.isi.
  - cbn. by rewrite DecimalZ.of_to.
  - destruct z; cbn; try done; intros [= H]; by eapply DecimalPos.Unsigned.to_uint_nonnil.
  - destruct z; cbn; try done; intros [= H]; by eapply DecimalPos.Unsigned.to_uint_nonnil.
Qed.

Lemma py_str_int_inj z1 z2 : py_str_int z1 = py_str_int z2 -> z1 = z2.
Proof.
  intros H. apply (f_equal py_parse_int) in H. rewrite !py_parse_str_int in H. congruence.
Qed.

(** Whether the character [c] occurs in [s]. *)
Fixpoint has_char (c : Ascii.ascii) (s : string) : bool :=
  match s with
  | EmptyString => false
  | String d s' => if Ascii.ascii_dec c d then true else has_char c s'
  end.

Definition is_decimal_char (c : Ascii.ascii) : bool :=
  has_char c "-0123456789".

Ltac case_ascii_dec :=
  match goal with
  | |- context [Ascii.ascii_dec ?c ?x] => destruct (Ascii.ascii_dec c x) as [->|]
  | H : context [Ascii.ascii_dec ?c ?x] |- _ => destruct (Ascii.ascii_dec c x) as [->|]
  end.

Lemma has_char_uint c d :
  has_char c (NilEmpty.string_of_uint d) = true -> is_decimal_char c = true.
Proof.
  induction d; cbn [NilEmpty.string_of_uint has_char]; intros H; try done;
    case_ascii_dec; first [reflexivity | exact (IHd H)].
Qed.

(** [str(z)] is made of digits and a minus sign. *)
Lemma py_str_int_chars c z :
  has_char c (py_str_int z) = true -> is_decimal_char c = true.
Proof.
  unfold py_str_int, NilZero.string_of_int, NilZero.string_of_uint.
  destruct (Z.to_int z) as [d|d]; cbn [has_char]; intros H;
    [|case_ascii_dec; [reflexivity|]];
    (destruct d; [cbn in H; case_ascii_dec; [reflexivity|done]
                 | exact (has_char_uint c _ H) ..]).
Qed.

(** Unfold the monad and the runtime's statements, then compute. *)
Ltac py_unfold :=
  unfold at_line, try_except, load, store, alloc, lift, throw, print,
    print_exc_info, se_bind, se_catch, se_get, se_ret, se_raise, se_modify,
    se_lift in *; cbn in *.

(** A statement that returned normally did so before its line was set. *)
Lemma at_line_ok {A} l (m : M A) w a w1 : at_line l m w = (inr a, w1) -> m w = (inr a, w1).
Proof. unfold at_line, se_catch. by destruct (m w) as [[]]. Qed.

(** ** Computations that leave the heap alone *)

Definition same_heap (w w' : world) : Prop := w_heap w' = w_heap w.

#[export] Instance same_heap_preorder : PreOrder same_heap.
Proof. split; [by intros w | intros w1 w2 w3 H12 H23; unfold same_heap in *; congruence]. Qed.

Definition keeps_heap {A} (m : M A) : Prop := se_preserves same_heap m.

Lemma keeps_heap_print args : keeps_heap (print args).
Proof. by intros w r w' [= _ <-]. Qed.

Lemma keeps_heap_throw {A} k msg : keeps_heap (A:=A) (throw k msg).
Proof. by intros w r w' [= _ <-]. Qed.

Lemma keeps_heap_at_line {A} l (m : M A) : keeps_heap m -> keeps_heap (at_line l m).
Proof. intros Hm. apply se_preserves_catch; [exact _ | done | intros e w r w' [= _ <-]; done]. Qed.

Lemma keeps_heap_py_split s sep : keeps_heap (py_split s sep).
Proof. unfold py_split. destruct sep; [apply keeps_heap_throw | by intros w r w' [= _ <-]]. Qed.

Lemma keeps_heap_py_getitem {A} (l : list A) i : keeps_heap (py_getitem l i).
Proof. unfold py_getitem. case_match; [by intros w r w' [= _ <-] | apply keeps_heap_throw]. Qed.

Lemma keeps_heap_unpack2 {A B} (v : option (A * B)) : keeps_heap (unpack2 v).
Proof. unfold unpack2. case_match; [by intros w r w' [= _ <-] | apply keeps_heap_throw]. Qed.

Lemma keeps_heap_apply {A} (m : M A) w r w' : keeps_heap m -> m w = (r, w') -> w_heap w' = w_heap w.
Proof. intros Hm Hr. exact (Hm _ _ _ Hr). Qed.

#[export] Hint Resolve keeps_heap_print keeps_heap_throw keeps_heap_at_line keeps_heap_py_split
  keeps_heap_py_getitem keeps_heap_unpack2 : pyrt.

(** Prove that a computation built of the runtime's statements keeps the heap. *)
Lemma keeps_heap_lift {A} (r : exn + A) : keeps_heap (lift r).
Proof. destruct r; by intros w r' w' [= _ <-]. Qed.

Lemma keeps_heap_load p : keeps_heap (load p).
Proof. unfold load. intros w r w'. cbn. case_match; by intros [= _ <-]. Qed.

Lemma keeps_heap_modify f : (forall w, w_heap (f w) = w_heap w) -> keeps_heap (se_modify f).
Proof. intros Hf w r w' [= _ <-]. apply Hf. Qed.

Ltac keeps_heap_solve :=
  unfold keeps_heap in *;
  repeat match goal with
    | |- se_preserves _ (se_bind _ _) => apply se_preserves_bind; [exact _ | | intros ?]
    | |- se_preserves _ (se_catch _ _) => apply se_preserves_catch; [exact _ | | intros ?]
    | |- se_preserves _ (try_except _ _) => apply se_preserves_catch; [exact _ | | intros ?]
    | |- se_preserves _ (at_line _ _) => apply keeps_heap_at_line
    | |- se_preserves _ (se_ret _) => by intros ? ? ? [= _ <-]
    | |- se_preserves _ (se_raise _) => by intros ? ? ? [= _ <-]
    | |- se_preserves _ se_get => by intros ? ? ? [= _ <-]
    | |- se_preserves _ (se_modify _) => by apply keeps_heap_modify
    | |- se_preserves _ (lift _) => apply keeps_heap_lift
    | |- se_preserves _ (load _) => apply keeps_heap_load
    | |- se_preserves _ (py_getitem _ _) => apply keeps_heap_py_getitem
    | |- se_preserves _ (py_split _ _) => apply keeps_heap_py_split
    | |- se_preserves _ (print _) => apply keeps_heap_print
    | |- se_preserves _ (print_exc_info _) => apply keeps_heap_print
    | |- se_preserves _ (throw _ _) => apply keeps_heap_throw
    | |- se_preserves _ (unpack2 _) => apply keeps_heap_unpack2
    | |- se_preserves _ (unpack3 _) => unfold unpack3
    | |- se_preserves _ (if _ then _ else _) => case_match
    | |- se_preserves _ _ => progress case_match
    end.
