(* ===== verification/Base64.v ===== *)
(** * The base64 library the scripts call

    CPython's C routines [binascii.b2a_base64] and [binascii.a2b_base64]
    (Modules/binascii.c, as of CPython 3.11) as written there, with their
    accumulators kept at their C widths, and the Python module [base64]:
    [encodebytes] (lines of at most 57 input bytes), [decodebytes],
    [encodestring] (an alias of [encodebytes] that Python 3.9 removed) and
    the buffer check [_input_type_check] both apply to their argument.

    The theorems: the accumulator encoder equals a group-of-three
    reference encoder; [decodebytes] inverts [encodebytes] on every byte
    string; the length of the encoding. *)

From S2P Require Import Prelude Py.

Local Open Scope Z_scope.

(** ** The tables *)

(** [table_b2a_base64]: the 64 characters, as byte values. *)
Definition b64_alphabet : list Z :=
  map (fun c => Z.of_N (Ascii.N_of_ascii c))
      (String.list_ascii_of_string "ABCDEFGHIJKLMNOPQRSTUVWXYZabcdefghijklmnopqrstuvwxyz0123456789+/").

Definition table_b2a (v : Z) : Z := nth (Z.to_nat v) b64_alphabet 0.

(** [table_a2b_base64]: the value of a character, or [0xff] for a
    character that is not in the alphabet. *)
Definition table_a2b (c : Z) : Z :=
  match list_find (fun x => x = c) b64_alphabet with
  | Some (i, _) => Z.of_nat i
  | None => 255
  end.

Arguments table_b2a : simpl never.

Definition BASE64_PAD : Z := 61.   (* '=' *)
Definition NEWLINE : Z := 10.      (* '\n' *)

(** ** [binascii.b2a_base64] *)

(** [unsigned int] arithmetic. *)
Definition uint32 (x : Z) : Z := x mod 2 ^ 32.

(** The inner [while (leftbits >= 6)] loop: emit the 6-bit groups ready
    in [leftchar].  [leftbits] is at most 12 on entry, so two iterations
    are enough ([b2a_drain_exits]). *)
Fixpoint b2a_drain (fuel : nat) (leftchar leftbits : Z) (out : list Z) : Z * list Z :=
  match fuel with
  | O => (leftbits, out)
  | S f =>
      if 6 <=? leftbits then
        let this_ch := Z.land (Z.shiftr leftchar (leftbits - 6)) 63 in
        b2a_drain f leftchar (leftbits - 6) (out ++ [table_b2a this_ch])
      else (leftbits, out)
  end.

(** The outer [for] loop over the input bytes. *)
Fixpoint b2a_loop (bin : list Z) (leftchar leftbits : Z) (out : list Z) : Z * Z * list Z :=
  match bin with
  | [] => (leftchar, leftbits, out)
  | b :: rest =>
      let leftchar' := uint32 (Z.lor (Z.shiftl leftchar 8) b) in
      let '(leftbits', out') := b2a_drain 2 leftchar' (leftbits + 8) out in
      b2a_loop rest leftchar' leftbits' out'
  end.

(** [binascii.b2a_base64(bin, newline=...)]: the loop, then the padding of
    a last group of one or two bytes, then the courtesy newline. *)
Definition b2a_base64 (bin : list Z) (newline : bool) : list Z :=
  let '(leftchar, leftbits, out) := b2a_loop bin 0 0 [] in
  let out :=
    if leftbits =? 2 then
      out ++ [table_b2a (Z.shiftl (Z.land leftchar 3) 4); BASE64_PAD; BASE64_PAD]
    else if leftbits =? 4 then
      out ++ [table_b2a (Z.shiftl (Z.land leftchar 15) 2); BASE64_PAD]
    else out in
  if newline then out ++ [NEWLINE] else out.

(** ** [binascii.a2b_base64] *)

(** The decoding loop, not in strict mode: characters outside the alphabet
    are skipped; a pad character after two or three data characters of a
    quad ends the input once the quad is complete; [leftchar] is an
    [unsigned char] and every output byte is stored as one. *)
Fixpoint a2b_loop (s : list Z) (quad_pos leftchar pads : Z) (out : list Z) : exn + list Z :=
  match s with
  | [] =>
      if quad_pos =? 0 then inr out
      else if quad_pos =? 1 then
        inl (Exn BinasciiError
               ("Invalid base64-encoded string: number of data characters ("
                ++ py_str_int (Z.of_nat (length out) / 3 * 4 + 1)
                ++ ") cannot be 1 more than a multiple of 4")%string)
      else inl (Exn BinasciiError "Incorrect padding")
  | c :: rest =>
      if c =? BASE64_PAD then
        if (2 <=? quad_pos) && (4 <=? quad_pos + (pads + 1)) then inr out
        else a2b_loop rest quad_pos leftchar (if 2 <=? quad_pos then pads + 1 else pads) out
      else
        let v := table_a2b c in
        if 64 <=? v then a2b_loop rest quad_pos leftchar pads out
        else if quad_pos =? 0 then a2b_loop rest 1 v 0 out
        else if quad_pos =? 1 then
          a2b_loop rest 2 (Z.land v 15) 0
                   (out ++ [Z.land (Z.lor (Z.shiftl leftchar 2) (Z.shiftr v 4)) 255])
        else if quad_pos =? 2 then
          a2b_loop rest 3 (Z.land v 3) 0
                   (out ++ [Z.land (Z.lor (Z.shiftl leftchar 4) (Z.shiftr v 2)) 255])
        else
          a2b_loop rest 0 0 0 (out ++ [Z.land (Z.lor (Z.shiftl leftchar 6) v) 255])
  end.

Definition a2b_base64 (s : list Z) : exn + list Z := a2b_loop s 0 0 0 [].

(** ** The module [base64] *)

(** An argument of the module's functions: a [bytes] object or a numpy
    array, seen through [memoryview]. *)
Inductive buffer := BufBytes (bs : list Z) | BufArray (a : ndarray).

Definition memoryview_format (b : buffer) : string :=
  match b with
  | BufBytes _ => "B"
  | BufArray a => match nd_dtype a with uint8 => "B" | int32 => "i" | float32 => "f" end
  end.

Definition memoryview_ndim (b : buffer) : Z :=
  match b with
  | BufBytes _ => 1
  | BufArray a => Z.of_nat (length (nd_shape a))
  end.

Definition buffer_bytes (b : buffer) : list Z :=
  match b with BufBytes bs => bs | BufArray a => nd_data a end.

Definition buffer_class (b : buffer) : string :=
  match b with BufBytes _ => "bytes" | BufArray _ => "ndarray" end.

(** [base64._input_type_check(s)]. *)
Definition input_type_check (b : buffer) : exn + list Z :=
  if negb (bool_decide (memoryview_format b ∈ ["c"; "b"; "B"])) then
    inl (Exn TypeError ("expected single byte elements, not '" ++ memoryview_format b
                        ++ "' from " ++ buffer_class b)%string)
  else if negb (memoryview_ndim b =? 1) then
    inl (Exn TypeError ("expected 1-D data, not " ++ py_str_int (memoryview_ndim b)
                        ++ "-D data from " ++ buffer_class b)%string)
  else inr (buffer_bytes b).

Definition MAXLINESIZE : nat := 76.
Definition MAXBINSIZE : nat := 57.   (* MAXLINESIZE // 4 * 3 *)

(** [range(0, n, step)]. *)
Definition py_range_step (n step : nat) : list nat :=
  map (fun k => step * k)%nat (seq 0 ((n + step - 1) / step)).

(** The loop of [encodebytes] over its input [s], already checked. *)
Definition encode_lines (s : list Z) : list Z :=
  mjoin (map (fun i => b2a_base64 (take MAXBINSIZE (drop i s)) true)
             (py_range_step (length s) MAXBINSIZE)).

(** [base64.encodebytes(s)]. *)
Definition encodebytes (b : buffer) : exn + list Z :=
  match input_type_check b with
  | inl e => inl e
  | inr s => inr (encode_lines s)
  end.

(** [base64.decodebytes(s)]. *)
Definition decodebytes (b : buffer) : exn + list Z :=
  match input_type_check b with
  | inl e => inl e
  | inr s => a2b_base64 s
  end.

(** [base64.encodestring(s)]: an alias of [encodebytes] up to Python 3.8,
    absent from the module since Python 3.9. *)
Definition encodestring (has_encodestring : bool) (b : buffer) : exn + list Z :=
  if has_encodestring then encodebytes b
  else inl (Exn AttributeError "module 'base64' has no attribute 'encodestring'").

(** ** The reference encoding

    RFC 4648: each group of three bytes is a 24-bit number written as four
    6-bit digits; a last group of one or two bytes is padded with zero bits
    and completed with [=]. *)

Definition enc_quad (n : Z) : list Z :=
  map table_b2a [n / 2 ^ 18; (n / 2 ^ 12) mod 64; (n / 2 ^ 6) mod 64; n mod 64].

Fixpoint rfc_encode (bs : list Z) : list Z :=
  match bs with
  | a :: b :: c :: rest => enc_quad (a * 2 ^ 16 + b * 2 ^ 8 + c) ++ rfc_encode rest
  | [a; b] => take 3 (enc_quad (a * 2 ^ 16 + b * 2 ^ 8)) ++ [BASE64_PAD]
  | [a] => take 2 (enc_quad (a * 2 ^ 16)) ++ [BASE64_PAD; BASE64_PAD]
  | [] => []
  end.

(** ** The accumulator encoder computes the reference encoding *)

(** The code after the loop of [b2a_base64], before the newline. *)
Definition b2a_finish (st : Z * Z * list Z) : list Z :=
  let '(leftchar, leftbits, out) := st in
  if leftbits =? 2 then
    out ++ [table_b2a (Z.shiftl (Z.land leftchar 3) 4); BASE64_PAD; BASE64_PAD]
  else if leftbits =? 4 then
    out ++ [table_b2a (Z.shiftl (Z.land leftchar 15) 2); BASE64_PAD]
  else out.

Lemma b2a_base64_finish bin nl :
  b2a_base64 bin nl = b2a_finish (b2a_loop bin 0 0 []) ++ (if nl then [NEWLINE] else []).
Proof.
  unfold b2a_base64. destruct (b2a_loop bin 0 0 []) as [[lc lb] out]. cbn.
  destruct nl; [done | by rewrite app_nil_r].
Qed.

Lemma b2a_drain_small n lc lb out :
  lb < 6 -> b2a_drain n lc lb out = (lb, out).
Proof. intros Hlb. destruct n; cbn; [done|]. by replace (6 <=? lb) with false by lia. Qed.

(** Two iterations of the inner loop are enough: from [leftbits < 18] (the
    loop is entered with at most [4 + 8]), more fuel changes nothing and
    fewer than 6 bits are left. *)
Lemma b2a_drain_exits n lc lb out :
  lb < 18 -> b2a_drain (2 + n) lc lb out = b2a_drain 2 lc lb out /\
             (b2a_drain 2 lc lb out).1 < 6.
Proof.
  intros Hlb. cbn [Nat.add b2a_drain].
  destruct (6 <=? lb) eqn:E1; [|cbn; split; [done | lia]].
  destruct (6 <=? lb - 6) eqn:E2.
  - rewrite ?b2a_drain_small by lia. cbn. split; [done | lia].
  - rewrite ?b2a_drain_small by lia. cbn. split; [done | lia].
Qed.

(** The 6-bit digit at bit [L] of [x]. *)
Lemma window_63 x L : 0 <= L -> Z.land (Z.shiftr x L) 63 = (x mod 2 ^ (L + 6)) / 2 ^ L.
Proof.
  intros HL. rewrite (land_mask_mod _ 63) by (lia || reflexivity).
  rewrite Z.shiftr_div_pow2 by lia. change (63 + 1) with (2 ^ 6). apply div_pow2_mod; lia.
Qed.

(** Shifting a byte into the [unsigned int] accumulator keeps the pending
    bits below it. *)
Lemma uint32_shift_byte lc b lb :
  0 <= b < 256 -> 0 <= lb <= 24 ->
  uint32 (Z.lor (Z.shiftl lc 8) b) mod 2 ^ (lb + 8) = (lc mod 2 ^ lb) * 256 + b.
Proof.
  intros Hb Hlb. unfold uint32.
  rewrite lor_shiftl_add, Z.shiftl_mul_pow2 by (cbn; lia).
  rewrite mod_pow2_mod_pow2, mod_pow2_shift_byte by lia.
  by replace (lb + 8 - 8) with lb by lia.
Qed.

(** One iteration of the outer loop from [leftbits] 0, 2 or 4: the
    digits emitted, and the pending bits. *)
Lemma b2a_step lc lb out b :
  0 <= b < 256 -> lb = 0 \/ lb = 2 \/ lb = 4 ->
  uint32 (Z.lor (Z.shiftl lc 8) b) mod 2 ^ (lb + 8) = (lc mod 2 ^ lb) * 256 + b /\
  b2a_drain 2 (uint32 (Z.lor (Z.shiftl lc 8) b)) (lb + 8) out =
    if lb =? 4 then
      (0, out ++ [table_b2a (((lc mod 2 ^ lb) * 256 + b) / 64);
                  table_b2a (((lc mod 2 ^ lb) * 256 + b) mod 64)])
    else (lb + 2, out ++ [table_b2a (((lc mod 2 ^ lb) * 256 + b) / 2 ^ (lb + 2))]).
Proof.
  intros Hb Hlb. pose proof (uint32_shift_byte lc b lb Hb ltac:(lia)) as Hv.
  split; [exact Hv|]. remember (uint32 (Z.lor (Z.shiftl lc 8) b)) as x eqn:Ex.
  destruct Hlb as [ -> | [ -> | -> ]]; cbn [b2a_drain];
    rewrite ?window_63 by (zcompute; lia); zcompute.
  - rewrite Hv. by rewrite Z.mod_1_r.
  - by rewrite Hv.
  - pose proof (mod_pow2_mod_pow2 x 6 12 ltac:(lia)) as H6. zcompute.
    rewrite <- H6, Hv, Z.div_1_r, <- app_assoc. done.
Qed.

(** The pending bits read by the padding code. *)
Lemma land_pending x k m v :
  0 <= m <= k -> x mod 2 ^ k = v -> Z.land x (2 ^ m - 1) = v mod 2 ^ m.
Proof.
  intros Hm Hx. rewrite (land_mask_mod x (2 ^ m - 1)).
  - replace (2 ^ m - 1 + 1) with (2 ^ m) by lia. rewrite <- Hx.
    by rewrite mod_pow2_mod_pow2.
  - pose proof (Z.pow_pos_nonneg 2 m). lia.
  - replace (2 ^ m - 1 + 1) with (2 ^ m) by lia. by rewrite Z.log2_pow2 by lia.
Qed.

(** One byte into the loop from [leftbits] 0, 2 or 4. *)
Lemma b2a_loop_step lc lb out b rest :
  0 <= b < 256 -> lb = 0 \/ lb = 2 \/ lb = 4 ->
  exists lc', lc' mod 2 ^ (lb + 8) = (lc mod 2 ^ lb) * 256 + b /\
    b2a_loop (b :: rest) lc lb out =
    b2a_loop rest lc' (if lb =? 4 then 0 else lb + 2)
      (out ++ if lb =? 4 then [table_b2a (((lc mod 2 ^ lb) * 256 + b) / 64);
                              table_b2a (((lc mod 2 ^ lb) * 256 + b) mod 64)]
              else [table_b2a (((lc mod 2 ^ lb) * 256 + b) / 2 ^ (lb + 2))]).
Proof.
  intros Hb Hlb. destruct (b2a_step lc lb out b Hb Hlb) as [Hv Hd].
  eexists. split; [exact Hv|]. cbn [b2a_loop]. rewrite Hd.
  by destruct (lb =? 4).
Qed.

(** Close an equation between two lists of digits, digit by digit, by
    arithmetic. *)
Ltac digits_eq :=
  repeat (apply (f_equal2 (@cons Z)); [apply (f_equal table_b2a); Z.div_mod_to_equations; lia|]); reflexivity.

(** Run one iteration of the outer loop on the goal. *)
Ltac b2a_advance lc lc' H :=
  match goal with
  | |- context [b2a_loop (?b :: ?r) lc ?lb ?o] =>
      destruct (b2a_loop_step lc lb o b r) as (lc' & H & ->); [lia | lia | zcompute]
  end.

(** Three bytes from [leftbits] 0: four digits, back at [leftbits] 0. *)
Lemma b2a_group lc out a b c rest :
  0 <= a < 256 -> 0 <= b < 256 -> 0 <= c < 256 ->
  exists lc', b2a_loop (a :: b :: c :: rest) lc 0 out =
              b2a_loop rest lc' 0 (out ++ enc_quad (a * 2 ^ 16 + b * 2 ^ 8 + c)).
Proof.
  intros Ha Hb Hc.
  b2a_advance lc lc1 H1. b2a_advance lc1 lc2 H2. b2a_advance lc2 lc3 H3.
  exists lc3. f_equal. rewrite <- !app_assoc. f_equal.
  rewrite Z.mod_1_r in *.
  assert (E1 : lc1 mod 4 = a mod 4).
  { pose proof (mod_pow2_mod_pow2 lc1 2 8 ltac:(lia)) as E. zcompute. by rewrite <- E, H1. }
  assert (E2 : lc2 mod 16 = b mod 16).
  { pose proof (mod_pow2_mod_pow2 lc2 4 10 ltac:(lia)) as E. zcompute.
    rewrite <- E, H2, Z.add_comm.
    replace (lc1 mod 4 * 256) with (lc1 mod 4 * 16 * 16) by lia. apply Z.mod_add. lia. }
  rewrite E1, E2. unfold enc_quad. cbn [map app]. zcompute.
  digits_eq.
Qed.

(** Rewrite the pending bits the padding code reads. *)
Ltac pending lc k m H :=
  let L := fresh "L" in
  pose proof (land_pending lc k m _ ltac:(lia) H) as L; zcompute; rewrite L;
  rewrite Z.shiftl_mul_pow2 by lia; zcompute.

Lemma b2a_loop_rfc bs : bytes_ok bs -> forall lc out,
  b2a_finish (b2a_loop bs lc 0 out) = out ++ rfc_encode bs.
Proof.
  induction bs as [|a|a b|a b c r IH] using list3_ind; intros Hok lc out;
    unfold bytes_ok in Hok;
    repeat match goal with H : Forall _ (_ :: _) |- _ => inversion_clear H end.
  - cbn. by rewrite app_nil_r.
  - b2a_advance lc lc1 V1. cbn [b2a_loop b2a_finish]. zcompute. pending lc1 8 2 V1.
    rewrite <- app_assoc. f_equal. unfold enc_quad. cbn [map take app]. zcompute. digits_eq.
  - b2a_advance lc lc1 V1. b2a_advance lc1 lc2 V2. cbn [b2a_loop b2a_finish]. zcompute.
    pending lc2 10 4 V2. rewrite <- !app_assoc. f_equal.
    rewrite Z.mod_1_r in *. assert (E1 : lc1 mod 4 = a mod 4).
    { pose proof (mod_pow2_mod_pow2 lc1 2 8 ltac:(lia)) as E. zcompute. by rewrite <- E, V1. }
    rewrite E1. unfold enc_quad. cbn [map take app]. zcompute. digits_eq.
  - destruct (b2a_group lc out a b c r) as [lc' ->]; [done..|].
    rewrite IH by (constructor || done). by rewrite <- app_assoc.
Qed.

(** [b2a_base64] computes the RFC 4648 encoding. *)
Theorem b2a_base64_rfc bs nl : bytes_ok bs ->
  b2a_base64 bs nl = rfc_encode bs ++ (if nl then [NEWLINE] else []).
Proof. intros Hok. by rewrite b2a_base64_finish, b2a_loop_rfc. Qed.

(** Every digit's character is not [=] and decodes to the digit. *)
Lemma table_digit d :
  0 <= d < 64 -> table_b2a d <> BASE64_PAD /\ table_a2b (table_b2a d) = d.
Proof.
  intros Hd.
  assert (Hall : Forall (λ d, table_b2a d <> BASE64_PAD /\ table_a2b (table_b2a d) = d)
                        (seqZ 0 64)) by (apply (bool_decide_eq_true_1 _); vm_compute; reflexivity).
  rewrite Forall_forall in Hall. apply Hall, elem_of_seqZ. lia.
Qed.

(** A digit's character, in any state of the decoder. *)
Lemma a2b_loop_digit d rest qp lc pads out :
  0 <= d < 64 ->
  a2b_loop (table_b2a d :: rest) qp lc pads out =
  if qp =? 0 then a2b_loop rest 1 d 0 out
  else if qp =? 1 then
    a2b_loop rest 2 (Z.land d 15) 0 (out ++ [Z.land (Z.lor (Z.shiftl lc 2) (Z.shiftr d 4)) 255])
  else if qp =? 2 then
    a2b_loop rest 3 (Z.land d 3) 0 (out ++ [Z.land (Z.lor (Z.shiftl lc 4) (Z.shiftr d 2)) 255])
  else a2b_loop rest 0 0 0 (out ++ [Z.land (Z.lor (Z.shiftl lc 6) d) 255]).
Proof.
  intros Hd. destruct (table_digit d Hd) as [Hp Hv]. cbn [a2b_loop].
  rewrite Hv. apply Z.eqb_neq in Hp as ->.
  by replace (64 <=? d) with false by (symmetry; apply Z.leb_gt; lia).
Qed.

(** A newline is not in the alphabet: the decoder skips it. *)
Lemma a2b_loop_newline rest qp lc pads out :
  a2b_loop (NEWLINE :: rest) qp lc pads out = a2b_loop rest qp lc pads out.
Proof. reflexivity. Qed.

(** The byte the decoder assembles from the low bits of [lc] and the high
    bits of a digit. *)
Lemma lor_shift_byte x y s :
  0 <= s -> 0 <= y < 2 ^ s -> Z.land (Z.lor (Z.shiftl x s) y) 255 = (x * 2 ^ s + y) mod 256.
Proof.
  intros Hs Hy. rewrite lor_shiftl_add, Z.shiftl_mul_pow2 by lia.
  by rewrite (land_mask_mod _ 255) by (lia || reflexivity).
Qed.

(** ** The decoder inverts the encoder *)

(** Decode the digit characters at the head of the input. *)
Ltac a2b_digits :=
  repeat (rewrite a2b_loop_digit by (Z.div_mod_to_equations; lia); zcompute).

(** Turn the assembled bytes and the kept bits into arithmetic. *)
Ltac a2b_bytes :=
  rewrite ?Z.shiftr_div_pow2 by lia;
  rewrite ?lor_shift_byte by (zcompute; Z.div_mod_to_equations; lia);
  rewrite ?(land_mask_mod _ 15), ?(land_mask_mod _ 3) by (lia || reflexivity); zcompute.

(** A quad decodes to its three bytes, back in state [quad_pos = 0]. *)
Lemma a2b_group a b c rest out :
  0 <= a < 256 -> 0 <= b < 256 -> 0 <= c < 256 ->
  a2b_loop (enc_quad (a * 2 ^ 16 + b * 2 ^ 8 + c) ++ rest) 0 0 0 out =
  a2b_loop rest 0 0 0 (out ++ [a; b; c]).
Proof.
  intros Ha Hb Hc. unfold enc_quad. cbn [map app]. zcompute. a2b_digits. a2b_bytes.
  rewrite <- !app_assoc. do 2 f_equal. cbn [app].
  repeat (apply (f_equal2 (@cons Z)); [Z.div_mod_to_equations; lia|]); reflexivity.
Qed.

(** The reference encoding decodes to its bytes: a padded last group ends
    the input, whatever follows it. *)
Lemma a2b_rfc bs rest out :
  bytes_ok bs ->
  a2b_loop (rfc_encode bs ++ rest) 0 0 0 out =
  if (length bs mod 3 =? 0)%nat then a2b_loop rest 0 0 0 (out ++ bs) else inr (out ++ bs).
Proof.
  revert out. induction bs as [|a|a b|a b c r IH] using list3_ind; intros out Hok;
    unfold bytes_ok in Hok;
    repeat match goal with H : Forall _ (_ :: _) |- _ => inversion_clear H end.
  - by rewrite app_nil_r.
  - cbn [rfc_encode]. unfold enc_quad. cbn [map take app]. zcompute. a2b_digits.
    cbn [a2b_loop]. unfold BASE64_PAD. zcompute. a2b_bytes. change (length [a] mod 3 =? 0)%nat with false. cbn iota.
    by replace ((a * 65536 / 262144 * 4 + a * 65536 / 4096 mod 64 / 16) mod 256) with a
      by (Z.div_mod_to_equations; lia).
  - cbn [rfc_encode]. unfold enc_quad. cbn [map take app]. zcompute. a2b_digits.
    cbn [a2b_loop]. unfold BASE64_PAD. zcompute. a2b_bytes.
    change (length [a; b] mod 3 =? 0)%nat with false. cbn iota.
    rewrite <- app_assoc. cbn [app]. do 2 f_equal.
    repeat (apply (f_equal2 (@cons Z)); [Z.div_mod_to_equations; lia|]); reflexivity.
  - cbn [rfc_encode]. rewrite <- app_assoc, a2b_group by done. rewrite IH by done.
    replace (length (a :: b :: c :: r)) with (length r + 1 * 3)%nat by (cbn; lia).
    rewrite Nat.Div0.mod_add. by rewrite <- app_assoc.
Qed.

(** [encodebytes] line by line: the first 57 bytes, then the rest. *)
Lemma encode_lines_cons s :
  s <> [] -> encode_lines s = b2a_base64 (take MAXBINSIZE s) true ++ encode_lines (drop MAXBINSIZE s).
Proof.
  intros Hs. unfold encode_lines, py_range_step, MAXBINSIZE. rewrite length_drop.
  replace ((length s + 57 - 1) / 57)%nat with (S ((length s - 57 + 57 - 1) / 57))
    by (destruct s as [|x s]; [done|]; cbn [length]; apply Nat2Z.inj;
        rewrite Nat2Z.inj_succ, !Nat2Z.inj_div; Z.div_mod_to_equations; lia).
  cbn [seq map]. rewrite Nat.mul_0_r, drop_0. cbn [mjoin list_join]. f_equal.
  rewrite <- seq_shift, !map_map. f_equal. apply map_ext. intros j.
  rewrite drop_drop. do 3 f_equal. lia.
Qed.

Lemma encode_lines_nil : encode_lines [] = [].
Proof. reflexivity. Qed.

(** The lines of [encodebytes] decode to the input, from the initial
    state of the decoder. *)
Lemma a2b_encode_lines s out :
  bytes_ok s -> a2b_loop (encode_lines s) 0 0 0 out = inr (out ++ s).
Proof.
  revert out. induction s as [s IH] using (induction_ltof1 _ (@length Z)); intros out Hok.
  destruct s as [|x s']; [by rewrite encode_lines_nil, app_nil_r|].
  remember (x :: s') as s eqn:Es.
  assert (Htake : bytes_ok (take MAXBINSIZE s)) by by apply Forall_take.
  rewrite encode_lines_cons by (subst; done). rewrite b2a_base64_rfc by done.
  rewrite <- app_assoc, a2b_rfc by done.
  destruct (decide (length s < MAXBINSIZE)%nat) as [Hlt|Hge].
  - rewrite take_ge, drop_ge, encode_lines_nil by lia.
    by destruct (length s mod 3 =? 0)%nat.
  - rewrite length_take_le by lia. cbn -[encode_lines a2b_loop].
    rewrite a2b_loop_newline, IH.
    + by rewrite <- app_assoc, take_drop.
    + unfold ltof. rewrite length_drop. unfold MAXBINSIZE in *. lia.
    + by apply Forall_drop.
Qed.

(** [base64.decodebytes] inverts [base64.encodebytes] on every byte string. *)
Theorem decodebytes_encodebytes bs :
  bytes_ok bs ->
  match encodebytes (BufBytes bs) with
  | inr e => decodebytes (BufBytes e)
  | inl err => inl err
  end = inr bs.
Proof. intros Hok. apply (a2b_encode_lines bs [] Hok). Qed.

(** Four characters for every group of three bytes, started or not. *)
Lemma rfc_encode_length bs :
  length (rfc_encode bs) = (4 * ((length bs + 2) / 3))%nat.
Proof.
  induction bs as [|a|a b|a b c r IH] using list3_ind; [done..|].
  cbn [rfc_encode]. rewrite length_app, IH. unfold enc_quad. cbn [length map].
  replace (S (S (S (length r))) + 2)%nat with ((length r + 2) + 1 * 3)%nat by lia.
  rewrite Nat.div_add by lia. lia.
Qed.
