(* ===== verification/Catalog.v ===== *)
(** * The dictionary catalogue: [Aruco.__init__] and [cv2.aruco]'s constants

    The OpenCV enumeration [cv::aruco::PREDEFINED_DICTIONARY_NAME] (the 21
    constants of OpenCV 4.x up to 4.6, the versions that still have the
    [Dictionary_get] API the scripts call), the attribute lookup
    [getattr(cv2.aruco, name)] the annotator uses, and the constructor of the
    class [Aruco], which builds [self.ARUCO_DICT] from a dict literal. *)

From S2P Require Import Prelude Py.

Local Open Scope Z_scope.

(** ** The constants of [cv2.aruco] *)

Inductive PREDEFINED_DICTIONARY_NAME :=
| DICT_4X4_50
| DICT_4X4_100
| DICT_4X4_250
| DICT_4X4_1000
| DICT_5X5_50
| DICT_5X5_100
| DICT_5X5_250
| DICT_5X5_1000
| DICT_6X6_50
| DICT_6X6_100
| DICT_6X6_250
| DICT_6X6_1000
| DICT_7X7_50
| DICT_7X7_100
| DICT_7X7_250
| DICT_7X7_1000
| DICT_ARUCO_ORIGINAL
| DICT_APRILTAG_16h5
| DICT_APRILTAG_25h9
| DICT_APRILTAG_36h10
| DICT_APRILTAG_36h11.

#[export] Instance dict_name_eq_dec : EqDecision PREDEFINED_DICTIONARY_NAME.
Proof. solve_decision. Defined.

(** The integer value of each constant. *)
Definition dict_value (d : PREDEFINED_DICTIONARY_NAME) : Z :=
  match d with
  | DICT_4X4_50 => 0
  | DICT_4X4_100 => 1
  | DICT_4X4_250 => 2
  | DICT_4X4_1000 => 3
  | DICT_5X5_50 => 4
  | DICT_5X5_100 => 5
  | DICT_5X5_250 => 6
  | DICT_5X5_1000 => 7
  | DICT_6X6_50 => 8
  | DICT_6X6_100 => 9
  | DICT_6X6_250 => 10
  | DICT_6X6_1000 => 11
  | DICT_7X7_50 => 12
  | DICT_7X7_100 => 13
  | DICT_7X7_250 => 14
  | DICT_7X7_1000 => 15
  | DICT_ARUCO_ORIGINAL => 16
  | DICT_APRILTAG_16h5 => 17
  | DICT_APRILTAG_25h9 => 18
  | DICT_APRILTAG_36h10 => 19
  | DICT_APRILTAG_36h11 => 20
  end.

(** The attribute name of each constant in the module [cv2.aruco]. *)
Definition dict_attr_name (d : PREDEFINED_DICTIONARY_NAME) : string :=
  match d with
  | DICT_4X4_50 => "DICT_4X4_50"
  | DICT_4X4_100 => "DICT_4X4_100"
  | DICT_4X4_250 => "DICT_4X4_250"
  | DICT_4X4_1000 => "DICT_4X4_1000"
  | DICT_5X5_50 => "DICT_5X5_50"
  | DICT_5X5_100 => "DICT_5X5_100"
  | DICT_5X5_250 => "DICT_5X5_250"
  | DICT_5X5_1000 => "DICT_5X5_1000"
  | DICT_6X6_50 => "DICT_6X6_50"
  | DICT_6X6_100 => "DICT_6X6_100"
  | DICT_6X6_250 => "DICT_6X6_250"
  | DICT_6X6_1000 => "DICT_6X6_1000"
  | DICT_7X7_50 => "DICT_7X7_50"
  | DICT_7X7_100 => "DICT_7X7_100"
  | DICT_7X7_250 => "DICT_7X7_250"
  | DICT_7X7_1000 => "DICT_7X7_1000"
  | DICT_ARUCO_ORIGINAL => "DICT_ARUCO_ORIGINAL"
  | DICT_APRILTAG_16h5 => "DICT_APRILTAG_16h5"
  | DICT_APRILTAG_25h9 => "DICT_APRILTAG_25h9"
  | DICT_APRILTAG_36h10 => "DICT_APRILTAG_36h10"
  | DICT_APRILTAG_36h11 => "DICT_APRILTAG_36h11"
  end.

Definition all_dicts : list PREDEFINED_DICTIONARY_NAME :=
  [DICT_4X4_50;
   DICT_4X4_100;
   DICT_4X4_250;
   DICT_4X4_1000;
   DICT_5X5_50;
   DICT_5X5_100;
   DICT_5X5_250;
   DICT_5X5_1000;
   DICT_6X6_50;
   DICT_6X6_100;
   DICT_6X6_250;
   DICT_6X6_1000;
   DICT_7X7_50;
   DICT_7X7_100;
   DICT_7X7_250;
   DICT_7X7_1000;
   DICT_ARUCO_ORIGINAL;
   DICT_APRILTAG_16h5;
   DICT_APRILTAG_25h9;
   DICT_APRILTAG_36h10;
   DICT_APRILTAG_36h11].

(** [getattr(cv2.aruco, name)] for a name of the form [DICT_...]. *)
Definition aruco_getattr (name : string) : exn + PREDEFINED_DICTIONARY_NAME :=
  match list_find (fun d => dict_attr_name d = name) all_dicts with
  | Some (_, d) => inr d
  | None => inl (Exn AttributeError
                   ("module 'cv2.aruco' has no attribute '" ++ name ++ "'")%string)
  end.

(** The grid size and the number of markers of the square-grid
    dictionaries; [None] for ArUco original and the AprilTag families. *)
Definition dict_grid (d : PREDEFINED_DICTIONARY_NAME) : option (Z * Z) :=
  match d with
  | DICT_4X4_50 => Some (4, 50)
  | DICT_4X4_100 => Some (4, 100)
  | DICT_4X4_250 => Some (4, 250)
  | DICT_4X4_1000 => Some (4, 1000)
  | DICT_5X5_50 => Some (5, 50)
  | DICT_5X5_100 => Some (5, 100)
  | DICT_5X5_250 => Some (5, 250)
  | DICT_5X5_1000 => Some (5, 1000)
  | DICT_6X6_50 => Some (6, 50)
  | DICT_6X6_100 => Some (6, 100)
  | DICT_6X6_250 => Some (6, 250)
  | DICT_6X6_1000 => Some (6, 1000)
  | DICT_7X7_50 => Some (7, 50)
  | DICT_7X7_100 => Some (7, 100)
  | DICT_7X7_250 => Some (7, 250)
  | DICT_7X7_1000 => Some (7, 1000)
  | _ => None
  end.

(** ** Python dicts built from a literal *)

(** [d[k] = v] on a dict kept as the list of its items in insertion order:
    an existing key keeps its position and takes the new value, a new key
    goes last. *)
Fixpoint dict_setitem {V} (k : string) (v : V) (d : list (string * V)) : list (string * V) :=
  match d with
  | [] => [(k, v)]
  | (k', v') :: d' => if String.eqb k k' then (k, v) :: d' else (k', v') :: dict_setitem k v d'
  end.

(** The dict a literal [{k1: v1, ..., kn: vn}] evaluates to. *)
Definition dict_literal {V} (kvs : list (string * V)) : list (string * V) :=
  fold_left (fun d kv => dict_setitem kv.1 kv.2 d) kvs [].

(** ** The class [Aruco] *)

Record Aruco := { ARUCO_DICT : list (string * PREDEFINED_DICTIONARY_NAME) }.

(** [Aruco.__init__]: the names of each possible ArUco tag OpenCV supports,
    in the order of the literal. *)
Definition Aruco_init : Aruco :=
  {| ARUCO_DICT := dict_literal
       [("DICT_4X4_50", DICT_4X4_50);
        ("DICT_4X4_100", DICT_4X4_100);
        ("DICT_4X4_250", DICT_4X4_250);
        ("DICT_4X4_1000", DICT_4X4_1000);
        ("DICT_5X5_50", DICT_5X5_50);
        ("DICT_5X5_100", DICT_5X5_100);
        ("DICT_5X5_250", DICT_5X5_250);
        ("DICT_5X5_1000", DICT_5X5_1000);
        ("DICT_6X6_50", DICT_6X6_50);
        ("DICT_6X6_100", DICT_6X6_100);
        ("DICT_6X6_250", DICT_6X6_250);
        ("DICT_6X6_1000", DICT_6X6_1000);
        ("DICT_7X7_50", DICT_7X7_50);
        ("DICT_7X7_100", DICT_7X7_100);
        ("DICT_7X7_250", DICT_7X7_250);
        ("DICT_7X7_1000", DICT_7X7_1000);
        ("DICT_ARUCO_ORIGINAL", DICT_ARUCO_ORIGINAL);
        ("DICT_APRILTAG_16h5", DICT_APRILTAG_16h5);
        ("DICT_APRILTAG_25h9", DICT_APRILTAG_25h9);
        ("DICT_APRILTAG_36h10", DICT_APRILTAG_36h10);
        ("DICT_APRILTAG_36h11", DICT_APRILTAG_36h11)] |}.

(** ** Properties of the catalogue *)

(** C4: every key of [self.ARUCO_DICT] is the attribute name, in
    [cv2.aruco], of the constant stored under it: looking the key up with
    [getattr(cv2.aruco, key)], as the annotator does, gives back the
    catalogue's value. *)
Theorem catalog_keys_resolve name d :
  In (name, d) (ARUCO_DICT Aruco_init) -> aruco_getattr name = inr d.
Proof.
  intros H. vm_compute in H.
  repeat (destruct H as [H|H]; [injection H as <- <-; reflexivity|]). done.
Qed.

Lemma catalog_keys_resolve_witness : aruco_getattr "DICT_5X5_100" = inr DICT_5X5_100.
Proof. apply catalog_keys_resolve. vm_compute. do 5 right. left. reflexivity. Defined.
