(* ===== verification/Vision.v ===== *)
(** * The OpenCV calls the scripts make, as an interface

    OpenCV itself is not modelled: the class [Cv2] lists the calls of
    [app.py] with their Python signatures (a call returns a value or raises
    [cv2.error]), and the class [Cv2Laws] states the few facts about them
    the theorems of the annotator and the driver rely on.  [toy_cv2] is a
    small implementation satisfying the laws, used to run the model on
    concrete inputs. *)

From S2P Require Import Prelude Py Catalog.
From Stdlib Require Import QArith.

Local Open Scope Z_scope.

(** A corner of a marker, in pixel coordinates (a float32 pair). *)
Definition point : Type := Q * Q.

(** What [cv2.aruco.detectMarkers] returns: [corners], a tuple with one
    [(1, 4, 2)] array per marker (kept as its list of points); [ids], an
    [(N, 1)] array of the markers' ids, or [None] when [N = 0]; and the
    rejected candidates. *)
Record detection := Detection {
  det_corners : list (list point);
  det_ids : option (list Z);
  det_rejected : list (list point)
}.

(** A BGR colour. *)
Definition color : Type := Z * Z * Z.

(** [cv2.FONT_HERSHEY_SIMPLEX]. *)
Definition FONT_HERSHEY_SIMPLEX : Z := 0.

Class Cv2 := {
  (** [cv2.imread] on a file's contents: the decoded image, or [None]. *)
  cv_imdecode : list Z -> option ndarray;
  (** [cv2.cvtColor(img, cv2.COLOR_BGR2GRAY)]. *)
  cv_cvtColor_BGR2GRAY : ndarray -> exn + ndarray;
  (** [cv2.aruco.Dictionary_get(id)]: the dictionary object of a constant. *)
  cv_Dictionary_get : PREDEFINED_DICTIONARY_NAME -> exn + PREDEFINED_DICTIONARY_NAME;
  (** [cv2.aruco.DetectorParameters_create()]: the default parameters. *)
  cv_DetectorParameters_create : exn + unit;
  (** [cv2.aruco.detectMarkers(img, dict, parameters=params)]. *)
  cv_detectMarkers : ndarray -> PREDEFINED_DICTIONARY_NAME -> exn + detection;
  (** [cv2.aruco.drawDetectedMarkers(img, corners)]: the new buffer. *)
  cv_drawDetectedMarkers : ndarray -> list (list point) -> exn + ndarray;
  (** [cv2.circle(img, center, radius, color, thickness)]. *)
  cv_circle : ndarray -> Z * Z -> Z -> color -> Z -> exn + ndarray;
  (** [cv2.putText(img, text, org, font, scale, color, thickness)]. *)
  cv_putText : ndarray -> string -> Z * Z -> Z -> Q -> color -> Z -> exn + ndarray
}.

(** What the theorems assume of OpenCV: drawing keeps the buffer's shape
    and element type; [detectMarkers] reports an id for each marker it
    finds; a decoded image is an [h x w x 3] array of bytes. *)
Class Cv2Laws `{Cv2} := {
  draw_shape img cs img' :
    cv_drawDetectedMarkers img cs = inr img' ->
    nd_shape img' = nd_shape img /\ nd_dtype img' = nd_dtype img;
  circle_shape img c r col t img' :
    cv_circle img c r col t = inr img' ->
    nd_shape img' = nd_shape img /\ nd_dtype img' = nd_dtype img;
  putText_shape img s o f sc col t img' :
    cv_putText img s o f sc col t = inr img' ->
    nd_shape img' = nd_shape img /\ nd_dtype img' = nd_dtype img;
  detect_ids img d det :
    cv_detectMarkers img d = inr det -> det_corners det <> [] ->
    exists ids, det_ids det = Some ids /\ length ids = length (det_corners det);
  imdecode_shape bs a :
    cv_imdecode bs = Some a ->
    exists h w, nd_shape a = [h; w; 3] /\ nd_dtype a = uint8
}.

(** ** A test double *)

(** The image's first byte names the one dictionary under which it shows a
    marker, of id 7, at corners (10,10) (30,10) (30,30) (10,30); drawing
    appends the drawn coordinates to the data and keeps the shape. *)
Definition toy_quad : list point :=
  [(10 # 1, 10 # 1); (30 # 1, 10 # 1); (30 # 1, 30 # 1); (10 # 1, 30 # 1)]%Q.

Definition toy_detect (img : ndarray) (d : PREDEFINED_DICTIONARY_NAME) : exn + detection :=
  match nd_data img with
  | v :: _ =>
      if v =? dict_value d then inr (Detection [toy_quad] (Some [7]) [])
      else inr (Detection [] None [])
  | [] => inl (Exn Cv2Error "empty image")
  end.

Definition toy_gray (img : ndarray) : exn + ndarray :=
  match nd_shape img with
  | [h; w; 3] => inr (NdArray [h; w] uint8 (nd_data img))
  | _ => inl (Exn Cv2Error "Invalid number of channels in input image")
  end.

Definition toy_decode (bs : list Z) : option ndarray :=
  match bs with
  | [] => None
  | _ => Some (NdArray [1; Z.of_nat (length bs); 3] uint8 bs)
  end.

#[export] Instance toy_cv2 : Cv2 := {
  cv_imdecode := toy_decode;
  cv_cvtColor_BGR2GRAY := toy_gray;
  cv_Dictionary_get := fun d => inr d;
  cv_DetectorParameters_create := inr tt;
  cv_detectMarkers := toy_detect;
  cv_drawDetectedMarkers := fun img _ => inr img;
  cv_circle := fun img c _ _ _ => inr (NdArray (nd_shape img) (nd_dtype img) (nd_data img ++ [c.1; c.2]));
  cv_putText := fun img _ o _ _ _ _ => inr (NdArray (nd_shape img) (nd_dtype img) (nd_data img ++ [o.1; o.2]))
}.

#[export] Instance toy_cv2_laws : Cv2Laws.
Proof.
  split; cbn.
  - by intros img cs img' [= <-].
  - by intros img c r col t img' [= <-].
  - by intros img s o f sc col t img' [= <-].
  - intros img d det. unfold toy_detect.
    destruct (nd_data img) as [|v vs]; [done|].
    case_match; intros [= <-]; cbn; [by eexists|done].
  - intros bs a. unfold toy_decode. destruct bs; [done|]. intros [= <-]. by eexists _, _.
Qed.

(** A world whose heap holds the image [a] at reference [1]. *)
Definition toy_world (a : ndarray) : world := World [] ∅ {[1%positive := a]} [].

(** A 1x2 BGR image whose first byte is [v]. *)
Definition toy_image (v : Z) : ndarray := NdArray [1; 2; 3] uint8 [v; 0; 0; 0; 0; 0].
