(* ===== verification/Prober.v ===== *)
(** * The prober: [Aruco.findArucoTYPE]

    [findArucoTYPE(img)] (app.py, lines 35-56) walks [self.ARUCO_DICT] in
    order, asks OpenCV for the dictionary, default detector parameters and
    the markers of [img] under it, and returns [(True, [name])] for the first
    dictionary with at least one marker.  An exception from any call is
    caught, printed, and turned into [(False, [])].  When no dictionary
    matches, the loop ends and the function falls off its end: it returns
    [None].

    The abstract specification [probe_spec] says which dictionary is
    reported, declaratively; [findArucoTYPE_refines] shows the code
    implements it. *)

From S2P Require Import Prelude Py Catalog Vision.

Local Open Scope Z_scope.
Local Open Scope se_scope.

Section Prober.
Context `{Cv2}.

(** The [for] loop of lines 38-51 over the remaining items of the dict. *)
Fixpoint probe_items (img : positive)
         (items : list (string * PREDEFINED_DICTIONARY_NAME))
  : M (option (bool * list string)) :=
  match items with
  | [] => se_ret None
  | (arucoName, arucoDict) :: rest =>
      dict <- at_line 41 (lift (cv_Dictionary_get arucoDict)) ;;
      _ <- at_line 42 (lift cv_DetectorParameters_create) ;;
      det <- at_line 43 (a <- load img ;; lift (cv_detectMarkers a dict)) ;;
      if (0 <? length (det_corners det))%nat then
        print [PStr ("[INFO] detected " ++ py_str_int (Z.of_nat (length (det_corners det)))
                     ++ " markers for '" ++ arucoName ++ "'")%string] ;;;
        se_ret (Some (true, [arucoName]))
      else probe_items img rest
  end.

(** [findArucoTYPE(self, img)]: [None] is Python's implicit return. *)
Definition findArucoTYPE (self : Aruco) (img : positive) : M (option (bool * list string)) :=
  try_except (probe_items img (ARUCO_DICT self))
             (fun r => print_exc_info r ;;; se_ret (Some (false, []))).

(** ** The specification *)

(** What trying one dictionary on the image [a] gives: the number of
    markers found, or the exception and the line that raised it. *)
Definition dict_hits (a : ndarray) (d : PREDEFINED_DICTIONARY_NAME) : (exn * Z) + nat :=
  match cv_Dictionary_get d with
  | inl e => inl (e, 41)
  | inr dict =>
      match cv_DetectorParameters_create with
      | inl e => inl (e, 42)
      | inr _ =>
          match cv_detectMarkers a dict with
          | inl e => inl (e, 43)
          | inr det => inr (length (det_corners det))
          end
      end
  end.

Inductive probe_outcome :=
| Found (name : string) (count : nat)
| NotFound
| Failed (e : exn) (line : Z).

(** The first dictionary, in catalogue order, with a marker wins; trying
    stops at the first exception. *)
Inductive probe_spec (a : ndarray) :
  list (string * PREDEFINED_DICTIONARY_NAME) -> probe_outcome -> Prop :=
| ps_none : probe_spec a [] NotFound
| ps_found n d rest k :
    dict_hits a d = inr k -> (0 < k)%nat -> probe_spec a ((n, d) :: rest) (Found n k)
| ps_skip n d rest o :
    dict_hits a d = inr 0%nat -> probe_spec a rest o -> probe_spec a ((n, d) :: rest) o
| ps_fail n d rest e l :
    dict_hits a d = inl (e, l) -> probe_spec a ((n, d) :: rest) (Failed e l).

(** What the caller sees of each outcome: the returned value and the
    world after the call. *)
Definition probe_observe (o : probe_outcome) (w : world)
  : (raised + option (bool * list string)) * world :=
  match o with
  | Found n k =>
      (inr (Some (true, [n])),
       set_out (w_out w ++ [[PStr ("[INFO] detected " ++ py_str_int (Z.of_nat k)
                                   ++ " markers for '" ++ n ++ "'")%string]]) w)
  | NotFound => (inr None, w)
  | Failed e l =>
      (inr (Some (false, [])),
       set_out (w_out w ++ [[PExcType (exn_type e); PStr "app.py"; PInt l]]) w)
  end.

(** ** Lemmas *)

Lemma probe_spec_total a items : exists o, probe_spec a items o.
Proof.
  induction items as [|[n d] rest [o IH]].
  - eexists. constructor.
  - destruct (dict_hits a d) as [[e l]|[|k]] eqn:E.
    + eexists. by eapply ps_fail.
    + eexists. by eapply ps_skip.
    + eexists. eapply ps_found; [done|lia].
Qed.

Lemma probe_spec_functional a items o1 o2 :
  probe_spec a items o1 -> probe_spec a items o2 -> o1 = o2.
Proof.
  intros H1. revert o2.
  induction H1 as [|n d rest k Hk Hpos|n d rest o Hk _ IH|n d rest e l He];
    intros o2 H2; inversion H2 as [|? ? ? k' Hk'|? ? ? ? Hk' Hr|? ? ? e' l' He']; subst;
    try congruence; auto.
  - rewrite Hk in Hk'. injection Hk' as Heq. lia.
  - rewrite Hk in Hk'. injection Hk' as Heq. lia.
Qed.

(** One step of the loop, when [img] holds [a]. *)
Lemma probe_items_cons img a n d rest w :
  w_heap w !! img = Some a ->
  probe_items img ((n, d) :: rest) w =
  match dict_hits a d with
  | inl (e, l) => (inl (Raised e l), w)
  | inr O => probe_items img rest w
  | inr k =>
      (inr (Some (true, [n])),
       set_out (w_out w ++ [[PStr ("[INFO] detected " ++ py_str_int (Z.of_nat k)
                                   ++ " markers for '" ++ n ++ "'")%string]]) w)
  end.
Proof.
  intros Ha. unfold dict_hits. cbn [probe_items]. py_unfold.
  destruct (cv_Dictionary_get d) as [e|dict]; [done|].
  destruct cv_DetectorParameters_create as [e|[]]; [done|]. rewrite Ha.
  destruct (cv_detectMarkers a dict) as [e|det]; [done|].
  by destruct (length (det_corners det)).
Qed.

Lemma probe_items_spec img a items o w :
  w_heap w !! img = Some a -> probe_spec a items o ->
  try_except (probe_items img items)
             (fun r => print_exc_info r ;;; se_ret (Some (false, []))) w
  = probe_observe o w.
Proof.
  intros Ha Hs. induction Hs as [|n d rest k Hk Hpos|n d rest o Hk _ IH|n d rest e l He].
  - done.
  - unfold try_except, se_catch. rewrite (probe_items_cons _ a) by done.
    rewrite Hk. by destruct k; [lia|].
  - unfold try_except, se_catch in *. by rewrite (probe_items_cons _ a), Hk.
  - unfold try_except, se_catch. by rewrite (probe_items_cons _ a), He.
Qed.

Lemma probe_spec_found a items n k :
  probe_spec a items (Found n k) ->
  exists pre d post, items = pre ++ (n, d) :: post /\ dict_hits a d = inr k /\ (0 < k)%nat /\
                     Forall (fun kv => dict_hits a kv.2 = inr 0%nat) pre.
Proof.
  remember (Found n k) as o eqn:Eo. induction 1 as [|n' d rest k' Hk Hpos|n' d rest o Hk _ IH|];
    try discriminate.
  - injection Eo as -> ->. by exists [], d, rest.
  - destruct (IH Eo) as (pre & d' & post & -> & Hd & Hpos & Hpre).
    exists ((n', d) :: pre), d', post. by repeat constructor.
Qed.

Lemma probe_spec_none a items :
  Forall (fun kv => dict_hits a kv.2 = inr 0%nat) items -> probe_spec a items NotFound.
Proof. induction 1 as [|[n d] rest Hd _ IH]; [constructor | by apply ps_skip]. Qed.

(** ** Properties *)

(** C1: [findArucoTYPE] implements its specification: on an image [a],
    with the outcome [o] that [probe_spec] assigns to the catalogue, the
    call returns [(True, [name])] and prints the [[INFO]] line for the
    first dictionary with markers, returns [(False, [])] and prints the
    exception's type, file and line when a call fails first, and returns
    [None] when no dictionary has a marker. *)
Theorem findArucoTYPE_refines self img a o w :
  w_heap w !! img = Some a ->
  probe_spec a (ARUCO_DICT self) o ->
  findArucoTYPE self img w = probe_observe o w.
Proof. apply probe_items_spec. Qed.

(** C2: first match wins: when [findArucoTYPE] reports [(True, [name])],
    [name] is the key of a catalogue entry whose dictionary finds a marker
    in the image, and every entry before it was tried and found none. *)
Theorem findArucoTYPE_first_match self img a w w' name :
  w_heap w !! img = Some a ->
  findArucoTYPE self img w = (inr (Some (true, [name])), w') ->
  exists pre d post k,
    ARUCO_DICT self = pre ++ (name, d) :: post /\ dict_hits a d = inr k /\ (0 < k)%nat /\
    Forall (fun kv => dict_hits a kv.2 = inr 0%nat) pre.
Proof.
  intros Ha Hr. destruct (probe_spec_total a (ARUCO_DICT self)) as [o Ho].
  rewrite (findArucoTYPE_refines self img a o w Ha Ho) in Hr.
  destruct o as [n k| |e l]; cbn in Hr; try discriminate.
  injection Hr as <- _. destruct (probe_spec_found _ _ _ _ Ho) as (pre & d & post & ?).
  by exists pre, d, post, k.
Qed.

(** C3: when no dictionary of the catalogue finds a marker (and no call
    fails), [findArucoTYPE] falls off the end of its loop and returns
    [None], Python's implicit return value, and prints nothing: it does not
    return [(False, [])]. *)
Theorem findArucoTYPE_no_match self img a w :
  w_heap w !! img = Some a ->
  Forall (fun kv => dict_hits a kv.2 = inr 0%nat) (ARUCO_DICT self) ->
  findArucoTYPE self img w = (inr None, w).
Proof.
  intros Ha Hz. by rewrite (findArucoTYPE_refines self img a NotFound w Ha (probe_spec_none _ _ Hz)).
Qed.
End Prober.

(** ** Witnesses on the test double *)

(** An image showing a [DICT_5X5_100] marker: the first five entries find
    nothing and the sixth reports one marker. *)
Lemma findArucoTYPE_refines_witness :
  w_heap (toy_world (toy_image 5)) !! 1%positive = Some (toy_image 5) /\
  probe_spec (toy_image 5) (ARUCO_DICT Aruco_init) (Found "DICT_5X5_100" 1) /\
  findArucoTYPE Aruco_init 1 (toy_world (toy_image 5))
  = probe_observe (Found "DICT_5X5_100" 1) (toy_world (toy_image 5)).
Proof.
  assert (Hs : probe_spec (toy_image 5) (ARUCO_DICT Aruco_init) (Found "DICT_5X5_100" 1)).
  { vm_compute. repeat (apply ps_skip; [reflexivity|]). apply ps_found; [reflexivity|lia]. }
  split; [reflexivity|]. split; [exact Hs|].
  apply (findArucoTYPE_refines Aruco_init 1 (toy_image 5)); [reflexivity | exact Hs].
Defined.

Lemma findArucoTYPE_first_match_witness :
  exists pre d post k,
    ARUCO_DICT Aruco_init = pre ++ ("DICT_5X5_100", d) :: post /\
    dict_hits (toy_image 5) d = inr k /\ (0 < k)%nat /\
    Forall (fun kv => dict_hits (toy_image 5) kv.2 = inr 0%nat) pre.
Proof.
  apply (findArucoTYPE_first_match Aruco_init 1 (toy_image 5) (toy_world (toy_image 5))
           (probe_observe (Found "DICT_5X5_100" 1) (toy_world (toy_image 5))).2);
    [reflexivity | vm_compute; reflexivity].
Defined.

(** An image with no marker of any dictionary. *)
Lemma findArucoTYPE_no_match_witness :
  findArucoTYPE Aruco_init 1 (toy_world (toy_image 99)) = (inr None, toy_world (toy_image 99)).
Proof.
  apply (findArucoTYPE_no_match Aruco_init 1 (toy_image 99)); [reflexivity|].
  vm_compute. repeat constructor.
Defined.
