(* ===== verification/Annotator.v ===== *)
(** * The annotator: [Aruco.findArucoMarkers]

    [findArucoMarkers(img, markerSize=4, totalMarkers=250, draw=True)]
    (app.py, lines 58-94) converts the image to grey, looks the dictionary
    [DICT_{markerSize}X{markerSize}_{totalMarkers}] up in [cv2.aruco],
    detects the markers, draws their outlines on [img] in place, and, in a
    loop over the markers whose body ends in [return], computes the first
    marker's centre, draws a dot there and its id above it, and returns the
    base64 encoding of the image buffer.  Every exception is printed and
    turned into [(False, "Internal error")]; with no marker the function
    returns [None].

    The image is an object of the heap: the drawing calls update it where
    the caller can see it.  Whether [base64.encodestring] exists (Python up
    to 3.8) is the section variable [has_encodestring]. *)

From S2P Require Import Prelude Py Base64 Catalog Vision.
From Stdlib Require Import QArith Ascii.

Local Open Scope Z_scope.
Local Open Scope se_scope.

(** ** Pure parts *)

(** The attribute name [f'DICT_{markerSize}X{markerSize}_{totalMarkers}']
    of line 61. *)
Definition aruco_key (markerSize totalMarkers : scalar) : string :=
  ("DICT_" ++ py_format markerSize ++ "X" ++ py_format markerSize ++ "_"
   ++ py_format totalMarkers)%string.

(** [int((a + b) / 2.0)] for Python ints [a] and [b] (the float division
    is exact for pixel coordinates, below [2^53]). *)
Definition half_trunc (a b : Z) : Z := py_int_of_float (inject_Z (a + b) / (2 # 1)).

(** Lines 76-81: the integer corners, then [(cX, cY)]. *)
Definition int_point (p : point) : Z * Z := (py_int_of_float p.1, py_int_of_float p.2).

Definition marker_center (topLeft bottomRight : Z * Z) : Z * Z :=
  (half_trunc topLeft.1 bottomRight.1, half_trunc topLeft.2 bottomRight.2).

(** [markerCorner.reshape((4, 2))] unpacked into four points. *)
Definition reshape_quad (c : list point) : M (point * point * point * point) :=
  match c with
  | [p0; p1; p2; p3] => se_ret (p0, p1, p2, p3)
  | _ => throw ValueError ("cannot reshape array of size " ++ py_str_int (2 * Z.of_nat (length c))
                           ++ " into shape (4,2)")%string
  end.

(** The value [print] shows for [ids]. *)
Definition ids_value (ids : option (list Z)) : pyval :=
  match ids with
  | None => PNone
  | Some l => PArray (NdArray [Z.of_nat (length l); 1] int32 l)
  end.

(** [id.flatten()]. *)
Definition flatten_ids (ids : option (list Z)) : M (list Z) :=
  match ids with
  | None => throw AttributeError "'NoneType' object has no attribute 'flatten'"
  | Some l => se_ret l
  end.

(** An in-place drawing call on the image object [img]. *)
Definition draw_on (img : positive) (f : ndarray -> exn + ndarray) : M unit :=
  a <- load img ;; a' <- lift (f a) ;; store img a'.

Section Annotator.
Context `{Cv2}.
Variable has_encodestring : bool.

(** The [for] loop of lines 73-88 over [zip(corners, id)]; its body ends
    in [return], so only the first pair is processed. *)
Definition annotate_markers (img : positive) (pairs : list (list point * Z))
  : M (option (bool * pyval)) :=
  match pairs with
  | [] => se_ret None
  | (markerCorner, markerID) :: _ =>
      q <- at_line 74 (reshape_quad markerCorner) ;;
      let '(tl, tr, br, bl) := q in
      let topLeft := int_point tl in
      let bottomRight := int_point br in
      let '(cX, cY) := marker_center topLeft bottomRight in
      at_line 82 (draw_on img (fun a => cv_circle a (cX, cY) 4 (0, 0, 255) (-1))) ;;;
      at_line 83 (draw_on img (fun a => cv_putText a (py_str_int markerID)
                                          (topLeft.1, topLeft.2 - 15) FONT_HERSHEY_SIMPLEX
                                          (1 # 2) (0, 255, 0) 2)) ;;;
      image_64_encode <- at_line 86 (a <- load img ;;
                                     lift (encodestring has_encodestring (BufArray a))) ;;
      print [PStr "Base64 Encoded Image:"; PBytes image_64_encode] ;;;
      se_ret (Some (true, PBytes image_64_encode))
  end.

(** Lines 66-67: [if draw: arucom.drawDetectedMarkers(img, corners)]. *)
Definition draw_outlines (img : positive) (draw : bool) (corners : list (list point)) : M unit :=
  if draw then at_line 67 (draw_on img (fun a => cv_drawDetectedMarkers a corners))
  else se_ret tt.

(** [findArucoMarkers(self, img, markerSize, totalMarkers, draw)]. *)
Definition findArucoMarkers (img : positive) (markerSize totalMarkers : scalar) (draw : bool)
  : M (option (bool * pyval)) :=
  try_except
    (gray <- at_line 60 (a <- load img ;; lift (cv_cvtColor_BGR2GRAY a)) ;;
     key <- at_line 61 (lift (aruco_getattr (aruco_key markerSize totalMarkers))) ;;
     arucoDict <- at_line 62 (lift (cv_Dictionary_get key)) ;;
     _ <- at_line 63 (lift cv_DetectorParameters_create) ;;
     det <- at_line 64 (lift (cv_detectMarkers gray arucoDict)) ;;
     print [PStr "Aruco IDs:"; ids_value (det_ids det)] ;;;
     draw_outlines img draw (det_corners det) ;;;
     if (0 <? length (det_corners det))%nat then
       ids <- at_line 71 (flatten_ids (det_ids det)) ;;
       annotate_markers img (zip (det_corners det) ids)
     else se_ret None)
    (fun r => print_exc_info r ;;; se_ret (Some (false, PStr "Internal error"))).

End Annotator.

(** ** Lemmas *)

Local Open Scope string_scope.

(** The text before and after the first occurrence of [c] in [s]. *)
Fixpoint break_at (c : Ascii.ascii) (s : string) : option (string * string) :=
  match s with
  | EmptyString => None
  | String d s' =>
      if Ascii.ascii_dec c d then Some (EmptyString, s')
      else match break_at c s' with
           | Some (x, y) => Some (String d x, y)
           | None => None
           end
  end.

Lemma break_at_app c x y :
  has_char c x = false -> break_at c (x ++ String c y) = Some (x, y).
Proof.
  induction x as [|d x IH]; cbn [has_char]; intros Hx.
  - rewrite str_app_nil. cbn [break_at]. by destruct (Ascii.ascii_dec c c).
  - rewrite str_app_cons. cbn [break_at]. destruct (Ascii.ascii_dec c d); [done|].
    by rewrite IH.
Qed.

Lemma py_str_int_no_sep c z :
  is_decimal_char c = false -> has_char c (py_str_int z) = false.
Proof.
  intros Hc. destruct (has_char c (py_str_int z)) eqn:E; [|done].
  by rewrite (py_str_int_chars _ _ E) in Hc.
Qed.

(** The key of line 61 is read back by splitting at the first [X] after
    [DICT_] and then at the first [_]. *)
Lemma aruco_key_parse m t :
  (strip_prefix "DICT_" (aruco_key (SInt m) (SInt t)) ≫= break_at "X"%char)
  = Some (py_str_int m, py_str_int m ++ "_" ++ py_str_int t) /\
  break_at "_"%char (py_str_int m ++ "_" ++ py_str_int t) = Some (py_str_int m, py_str_int t).
Proof.
  unfold aruco_key. cbn [py_format].
  rewrite (proj2 (strip_prefix_spec _ _ _) eq_refl). cbn [mbind option_bind].
  split; apply break_at_app, py_str_int_no_sep; reflexivity.
Qed.

Lemma aruco_getattr_name name d :
  aruco_getattr name = inr d -> dict_attr_name d = name.
Proof.
  unfold aruco_getattr. destruct (list_find _ _) as [[i d']|] eqn:E; [|done].
  intros [= <-]. by apply list_find_Some in E as (_ & ? & _).
Qed.

Lemma half_trunc_quot a b : half_trunc a b = Z.quot (a + b) 2.
Proof. unfold half_trunc, py_int_of_float. cbn. by rewrite Z.mul_1_r. Qed.

Lemma quot2_between a b : (Z.min a b <= Z.quot (a + b) 2 <= Z.max a b)%Z.
Proof.
  pose proof (Z.quot_rem' (a + b) 2) as Hqr.
  pose proof (Z.rem_bound_abs (a + b) 2 ltac:(lia)) as Hb.
  destruct (Z.le_gt_cases 0 (a + b)) as [Hs|Hs].
  - pose proof (Z.rem_nonneg (a + b) 2 ltac:(lia) Hs). lia.
  - pose proof (Z.rem_nonpos (a + b) 2 ltac:(lia) ltac:(lia)). lia.
Qed.

(** Read an equation [py_str_int z = "<digits>"] as [z = <number>]. *)
Ltac solve_str_int :=
  match goal with
  | H : py_str_int ?z = ?s |- _ =>
      let n := eval vm_compute in (default 0%Z (py_parse_int s)) in
      assert (z = n) as -> by (apply py_str_int_inj; rewrite H; reflexivity);
      clear H
  end.

Lemma draw_on_spec img f a w :
  w_heap w !! img = Some a ->
  draw_on img f w = match f a with
                    | inl e => (inl (Raised e 0), w)
                    | inr a' => (inr tt, set_heap (<[img:=a']> (w_heap w)) w)
                    end.
Proof. intros Ha. unfold draw_on. py_unfold. rewrite Ha. cbn. by destruct (f a). Qed.

(** [base64.encodestring] rejects an image buffer that is not 1-D, with a
    [TypeError] (or an [AttributeError] from Python 3.9 on). *)
Lemma encodestring_not_1d has a :
  length (nd_shape a) <> 1%nat -> exists e, encodestring has (BufArray a) = inl e.
Proof.
  intros Hn. unfold encodestring, encodebytes, input_type_check.
  destruct has; [|by eexists]. cbn [memoryview_ndim].
  case_bool_decide; cbn; [|by eexists].
  destruct (Z.of_nat (length (nd_shape a)) =? 1)%Z eqn:E; [lia|]. by eexists.
Qed.

Lemma encodestring_fails_kind has a :
  length (nd_shape a) <> 1%nat ->
  exists msg, encodestring has (BufArray a)
              = inl (Exn (if has then TypeError else AttributeError) msg).
Proof.
  intros Hn. unfold encodestring, encodebytes, input_type_check.
  destruct has; [|by eexists]. cbn [memoryview_ndim].
  case_bool_decide; cbn; [|by eexists].
  destruct (Z.of_nat (length (nd_shape a)) =? 1)%Z eqn:E; [lia|]. by eexists.
Qed.

Section AnnotatorLemmas.
Context `{Cv2Laws}.
Variable has_encodestring : bool.

Lemma annotate_markers_not_true img a pairs w v w' :
  w_heap w !! img = Some a -> length (nd_shape a) <> 1%nat ->
  annotate_markers has_encodestring img pairs w <> (inr (Some (true, v)), w').
Proof.
  intros Ha Hn. destruct pairs as [|[c id0] rest]; [done|].
  unfold annotate_markers. py_unfold.
  destruct c as [|p0 [|p1 [|p2 [|p3 [|p4 c]]]]]; cbn; try done.
  rewrite (draw_on_spec _ _ a) by done. cbn.
  destruct (cv_circle _ _ _ _ _) as [e1|a1] eqn:E1; cbn; [done|].
  destruct (circle_shape _ _ _ _ _ _ E1) as [S1 _].
  rewrite (draw_on_spec _ _ a1) by apply lookup_insert_eq. cbn.
  destruct (cv_putText _ _ _ _ _ _ _) as [e2|a2] eqn:E2; cbn; [done|].
  destruct (putText_shape _ _ _ _ _ _ _ _ E2) as [S2 _].
  rewrite lookup_insert_eq. cbn.
  destruct (encodestring_not_1d has_encodestring a2) as [e ->]; [congruence|]. done.
Qed.
Lemma draw_outlines_shape img a draw corners w :
  w_heap w !! img = Some a ->
  match draw_outlines img draw corners w with
  | (inl _, _) => True
  | (inr _, w1) => exists a1, w_heap w1 !! img = Some a1 /\ nd_shape a1 = nd_shape a
  end.
Proof.
  intros Ha. destruct draw; cbn; [|by exists a].
  unfold at_line, se_catch. rewrite (draw_on_spec _ _ a) by done.
  destruct (cv_drawDetectedMarkers a _) as [e|a1] eqn:E; [done|].
  exists a1. split; [apply lookup_insert_eq | apply (draw_shape _ _ _ E)].
Qed.
(** The annotator never reports success on a buffer that is not 1-D. *)
Lemma findArucoMarkers_not_true img a markerSize totalMarkers draw w v w' :
  w_heap w !! img = Some a -> length (nd_shape a) <> 1%nat ->
  findArucoMarkers has_encodestring img markerSize totalMarkers draw w
  <> (inr (Some (true, v)), w').
Proof.
  intros Ha Hn. unfold findArucoMarkers, flatten_ids. py_unfold. rewrite Ha. cbn.
  destruct (cv_cvtColor_BGR2GRAY a) as [e|gray]; cbn; [done|].
  destruct (aruco_getattr _) as [e|key]; cbn; [done|].
  destruct (cv_Dictionary_get key) as [e|dict]; cbn; [done|].
  destruct cv_DetectorParameters_create as [e|[]]; cbn; [done|].
  destruct (cv_detectMarkers gray dict) as [e|det]; cbn; [done|].
  pose proof (draw_outlines_shape img a draw (det_corners det)
               (set_out (w_out w ++ [[PStr "Aruco IDs:"; ids_value (det_ids det)]]) w) Ha) as Hd.
  destruct (draw_outlines img draw _ _) as [[e|[]] w1]; cbn; [done|].
  destruct Hd as (a1 & Ha1 & Hs1).
  destruct (length (det_corners det)); cbn; [done|].
  destruct (det_ids det) as [ids|]; cbn; [|done].
  destruct (annotate_markers has_encodestring img _ w1) as [[e|r] w2] eqn:E; cbn; [done|].
  intros [= -> ->]. eapply (annotate_markers_not_true img a1); [done | congruence | exact E].
Qed.
End AnnotatorLemmas.

(** Compute the closed left-hand side of the equation [H]. *)
Ltac compute_lhs H :=
  lazymatch type of H with
  | ?l = _ => let v := eval vm_compute in l in change l with v in H
  end.

(** A key of line 61 that resolves names a grid size 4 to 7 and a total
    50, 100, 250 or 1000. *)
Lemma aruco_key_valid m t d :
  aruco_getattr (aruco_key (SInt m) (SInt t)) = inr d ->
  (4 <= m <= 7 /\ In t [50; 100; 250; 1000])%Z.
Proof.
  intros Hd. apply aruco_getattr_name in Hd.
  destruct (aruco_key_parse m t) as [Hx Hu]. rewrite <- Hd in Hx.
  remember (py_str_int m) as a eqn:Ha. remember (py_str_int t) as b eqn:Hb.
  destruct d; compute_lhs Hx; try discriminate; injection Hx as <- Hrest;
    rewrite <- Hrest in Hu; compute_lhs Hu; injection Hu as <-;
    symmetry in Ha, Hb; do 2 solve_str_int; cbn; lia.
Qed.

Lemma aruco_getattr_error name e :
  aruco_getattr name = inl e -> exn_type e = AttributeError.
Proof. unfold aruco_getattr. by destruct (list_find _ _) as [[]|]; intros [= <-]. Qed.

(** ** Properties *)

(** C5: the dictionary lookup of line 61 succeeds exactly for the sizes
    4 to 7 and the totals 50, 100, 250 and 1000: any other integer
    combination, e.g. [3x3_50], makes [getattr] raise, which the annotator
    reports as ["Internal error"]. *)
Theorem aruco_key_resolves (m t : Z) :
  (exists d, aruco_getattr (aruco_key (SInt m) (SInt t)) = inr d) <->
  (4 <= m <= 7 /\ In t [50; 100; 250; 1000])%Z.
Proof.
  split.
  - intros [d Hd]. exact (aruco_key_valid m t d Hd).
  - intros [Hm Ht].
    assert (m = 4 \/ m = 5 \/ m = 6 \/ m = 7)%Z as Hm' by lia.
    destruct Hm' as [ -> | [ -> | [ -> | -> ]]];
      repeat (destruct Ht as [<-|Ht]; [eexists; reflexivity|]); done.
Qed.

(** C6: the centre of lines 80-81 is the midpoint of the top-left and
    bottom-right corners truncated toward zero ([int()] of a float), not
    rounded down; it lies between the two corners on each axis. *)
Theorem marker_center_spec (topLeft bottomRight : Z * Z) :
  marker_center topLeft bottomRight
  = (Z.quot (topLeft.1 + bottomRight.1) 2, Z.quot (topLeft.2 + bottomRight.2) 2) /\
  (Z.min topLeft.1 bottomRight.1 <= (marker_center topLeft bottomRight).1
   <= Z.max topLeft.1 bottomRight.1)%Z /\
  (Z.min topLeft.2 bottomRight.2 <= (marker_center topLeft bottomRight).2
   <= Z.max topLeft.2 bottomRight.2)%Z.
Proof.
  unfold marker_center. cbn [fst snd]. rewrite !half_trunc_quot.
  split; [done|]. split; apply quot2_between.
Qed.

Section AnnotatorProperties.
Context `{Cv2Laws}.
Variable has_encodestring : bool.

(** C7: [findArucoMarkers] never reports success on an image that is not a
    1-D array, whatever the markers found, the sizes asked for and the
    Python version: the buffer keeps its shape through the drawing calls
    (which OpenCV does in place) and [base64.encodestring] of line 86
    rejects a buffer that is not 1-D (a [TypeError] up to Python 3.8, an
    [AttributeError] from 3.9 on), so the call ends in its [except] branch. *)
Theorem findArucoMarkers_never_succeeds img a markerSize totalMarkers draw w v w' :
  w_heap w !! img = Some a -> length (nd_shape a) <> 1%nat ->
  findArucoMarkers has_encodestring img markerSize totalMarkers draw w
  <> (inr (Some (true, v)), w').
Proof. apply findArucoMarkers_not_true. Qed.

(** C8: on an image with at least one detected marker, [findArucoMarkers]
    draws the outlines of all markers (when [draw]), then the dot at the
    centre and the id of the first marker only, then fails at line 86:
    it prints the ids, then the exception ([TypeError], or [AttributeError]
    without [base64.encodestring]) with line 86, returns
    [(False, "Internal error")], and leaves the annotated buffer in the
    caller's image object. *)
Theorem findArucoMarkers_first_marker img a markerSize totalMarkers (draw : bool) w gray key dict det
        p0 p1 p2 p3 id0 rest_c rest_ids a1 a2 a3 :
  w_heap w !! img = Some a -> length (nd_shape a) <> 1%nat ->
  cv_cvtColor_BGR2GRAY a = inr gray ->
  aruco_getattr (aruco_key markerSize totalMarkers) = inr key ->
  cv_Dictionary_get key = inr dict ->
  cv_DetectorParameters_create = inr tt ->
  cv_detectMarkers gray dict = inr det ->
  det_corners det = [p0; p1; p2; p3] :: rest_c ->
  det_ids det = Some (id0 :: rest_ids) ->
  (if draw then cv_drawDetectedMarkers a (det_corners det) = inr a1 else a1 = a) ->
  cv_circle a1 (marker_center (int_point p0) (int_point p2)) 4 (0, 0, 255) (-1) = inr a2 ->
  cv_putText a2 (py_str_int id0) ((int_point p0).1, (int_point p0).2 - 15)
             FONT_HERSHEY_SIMPLEX (1 # 2) (0, 255, 0) 2 = inr a3 ->
  findArucoMarkers has_encodestring img markerSize totalMarkers draw w =
  (inr (Some (false, PStr "Internal error")),
   World (w_out w ++ [[PStr "Aruco IDs:"; ids_value (det_ids det)];
                      [PExcType (if has_encodestring then TypeError else AttributeError);
                       PStr "app.py"; PInt 86]])
         (w_fs w) (<[img:=a3]> (w_heap w)) (w_keys w)).
Proof.
  intros Ha Hn Hg Hk Hd Hp Hdet Hc Hids Hdraw Hcirc Hput.
  assert (Hs3 : nd_shape a3 = nd_shape a /\ nd_dtype a3 = nd_dtype a).
  { destruct (putText_shape _ _ _ _ _ _ _ _ Hput) as [-> ->].
    destruct (circle_shape _ _ _ _ _ _ Hcirc) as [-> ->].
    destruct draw; [apply (draw_shape _ _ _ Hdraw) | by subst]. }
  unfold findArucoMarkers, flatten_ids. py_unfold.
  rewrite Ha; cbn. rewrite Hg; cbn. rewrite Hk; cbn. rewrite Hd; cbn. rewrite Hp; cbn.
  rewrite Hdet; cbn.
  assert (Hdr : draw_outlines img draw (det_corners det)
                  (set_out (w_out w ++ [[PStr "Aruco IDs:"; ids_value (det_ids det)]]) w)
                = (inr tt, set_heap (<[img:=a1]> (w_heap w))
                     (set_out (w_out w ++ [[PStr "Aruco IDs:"; ids_value (det_ids det)]]) w))).
  { destruct draw; cbn.
    - unfold at_line, se_catch. rewrite (draw_on_spec _ _ a) by done. by rewrite Hdraw.
    - subst a1. f_equal. destruct w; cbn in *. unfold set_heap; cbn. by rewrite insert_id. }
  rewrite Hdr; cbn. rewrite Hc, Hids; cbn.
  unfold annotate_markers. py_unfold. unfold marker_center, int_point in Hcirc, Hput. cbn in Hcirc, Hput.
  rewrite (draw_on_spec _ _ a1) by apply lookup_insert_eq. cbn. rewrite Hcirc; cbn.
  rewrite (draw_on_spec _ _ a2) by apply lookup_insert_eq. cbn. rewrite Hput; cbn.
  rewrite lookup_insert_eq; cbn.
  destruct (encodestring_fails_kind has_encodestring a3) as [msg ->]; [by rewrite (proj1 Hs3)|].
  unfold set_out, set_heap. cbn. by rewrite !insert_insert_eq, <- app_assoc.
Qed.

(** C14: a size and total that name no dictionary of [cv2.aruco] (the
    spec's example [3x3_50], or any other pair outside sizes 4-7 and totals
    50, 100, 250, 1000) are a configuration error, not a crash: [getattr]
    raises [AttributeError] at line 61, the handler prints its type, file
    and line, and [findArucoMarkers] returns [(False, "Internal error")]
    with the image untouched. *)
Theorem findArucoMarkers_bad_config img a m t draw w gray :
  w_heap w !! img = Some a -> cv_cvtColor_BGR2GRAY a = inr gray ->
  ~ (4 <= m <= 7 /\ In t [50; 100; 250; 1000])%Z ->
  findArucoMarkers has_encodestring img (SInt m) (SInt t) draw w =
  (inr (Some (false, PStr "Internal error")),
   set_out (w_out w ++ [[PExcType AttributeError; PStr "app.py"; PInt 61]]) w).
Proof.
  intros Ha Hg Hbad. unfold findArucoMarkers. py_unfold. rewrite Ha, Hg. cbn.
  destruct (aruco_getattr _) as [e|d] eqn:E; cbn.
  - by rewrite (aruco_getattr_error _ _ E).
  - by destruct (Hbad (aruco_key_valid m t d E)).
Qed.

(** C16: when the dictionary finds no marker, [findArucoMarkers] prints
    the ids [detectMarkers] returned, draws the (empty) outlines when
    [draw], skips the [if] of line 69 and falls off its end: it returns
    [None], not a pair, which the caller's unpacking at line 114 cannot
    take apart. *)
Theorem findArucoMarkers_no_markers img a markerSize totalMarkers (draw : bool) w gray key dict det a1 :
  w_heap w !! img = Some a ->
  cv_cvtColor_BGR2GRAY a = inr gray ->
  aruco_getattr (aruco_key markerSize totalMarkers) = inr key ->
  cv_Dictionary_get key = inr dict ->
  cv_DetectorParameters_create = inr tt ->
  cv_detectMarkers gray dict = inr det ->
  det_corners det = [] ->
  (if draw then cv_drawDetectedMarkers a [] = inr a1 else a1 = a) ->
  findArucoMarkers has_encodestring img markerSize totalMarkers draw w =
  (inr None,
   World (w_out w ++ [[PStr "Aruco IDs:"; ids_value (det_ids det)]])
         (w_fs w) (<[img:=a1]> (w_heap w)) (w_keys w)).
Proof.
  intros Ha Hg Hk Hd Hp Hdet Hc Hdraw.
  unfold findArucoMarkers. py_unfold.
  rewrite Ha; cbn. rewrite Hg; cbn. rewrite Hk; cbn. rewrite Hd; cbn. rewrite Hp; cbn.
  rewrite Hdet; cbn. rewrite Hc. destruct draw; cbn.
  - unfold draw_on. py_unfold. rewrite Ha, Hdraw. done.
  - subst a1. destruct w; cbn in *. by rewrite insert_id.
Qed.

End AnnotatorProperties.

(** ** Witnesses on the test double *)

Lemma findArucoMarkers_never_succeeds_witness :
  length (nd_shape (toy_image 5)) <> 1%nat /\
  findArucoMarkers true 1 (SInt 5) (SInt 100) true (toy_world (toy_image 5))
  <> (inr (Some (true, PNone)), toy_world (toy_image 5)).
Proof.
  split; [cbn; lia|].
  apply (findArucoMarkers_never_succeeds true 1 (toy_image 5)); [reflexivity | cbn; lia].
Defined.

(** The marker of [toy_image 5] has corners (10,10) and (30,30): the dot
    goes to (20,20) and the id 7 to (10,-5). *)
Lemma findArucoMarkers_first_marker_witness :
  findArucoMarkers true 1 (SInt 5) (SInt 100) true (toy_world (toy_image 5)) =
  (inr (Some (false, PStr "Internal error")),
   World ([] ++ [[PStr "Aruco IDs:"; ids_value (Some [7])];
                 [PExcType TypeError; PStr "app.py"; PInt 86]])
         ∅ (<[1%positive := NdArray [1; 2; 3] uint8 [5; 0; 0; 0; 0; 0; 20; 20; 10; -5]]>
              {[1%positive := toy_image 5]}) []).
Proof.
  apply (findArucoMarkers_first_marker true 1 (toy_image 5) (SInt 5) (SInt 100) true
           (toy_world (toy_image 5)) (NdArray [1; 2] uint8 [5; 0; 0; 0; 0; 0])
           DICT_5X5_100 DICT_5X5_100 (Detection [toy_quad] (Some [7]) [])
           (10 # 1, 10 # 1) (30 # 1, 10 # 1) (30 # 1, 30 # 1) (10 # 1, 30 # 1) 7 [] []
           (toy_image 5) (NdArray [1; 2; 3] uint8 [5; 0; 0; 0; 0; 0; 20; 20]));
    try reflexivity; cbn; lia.
Defined.

(** The spec's example: size 3 with 50 markers. *)
Lemma findArucoMarkers_bad_config_witness :
  findArucoMarkers true 1 (SInt 3) (SInt 50) true (toy_world (toy_image 5)) =
  (inr (Some (false, PStr "Internal error")),
   set_out (w_out (toy_world (toy_image 5)) ++ [[PExcType AttributeError; PStr "app.py"; PInt 61]])
           (toy_world (toy_image 5))).
Proof.
  apply (findArucoMarkers_bad_config true 1 (toy_image 5) 3 50 true _
           (NdArray [1; 2] uint8 [5; 0; 0; 0; 0; 0])); [reflexivity | reflexivity | lia].
Defined.

(** An image with no marker: [toy_image 99]. *)
Lemma findArucoMarkers_no_markers_witness :
  findArucoMarkers true 1 (SInt 5) (SInt 250) true (toy_world (toy_image 99)) =
  (inr None,
   World ([] ++ [[PStr "Aruco IDs:"; ids_value None]])
         ∅ (<[1%positive := toy_image 99]> {[1%positive := toy_image 99]}) []).
Proof.
  apply (findArucoMarkers_no_markers true 1 (toy_image 99) (SInt 5) (SInt 250) true
           (toy_world (toy_image 99)) (NdArray [1; 2] uint8 [99; 0; 0; 0; 0; 0])
           DICT_5X5_250 DICT_5X5_250 (Detection [] None []) (toy_image 99));
    reflexivity.
Defined.
