(* ===== verification/Driver.v ===== *)
(** * The driver: [Aruco.findAruco] and the top-level script

    [findAruco(path)] (app.py, lines 96-128) reads the image with
    [cv2.imread], then loops: [success, img = cap.read()], probe the
    dictionary, derive [size] from its name, annotate, read a key; it
    returns [(True, resp, 200)] after the loop, [(False, "Internal error",
    500)] when a stage reports failure, and [(False, "Internal error")]
    when an exception escapes the loop.  The script (lines 131-135) unpacks
    the result into three names and prints them.

    [cap] is what [cv2.imread] returns, an image array or [None]; the
    methods [read] and [release] the loop calls on it are those of the
    class [Capture], so that the loop is modelled for any object with such
    methods and [findAruco] for the one it really gets.  The theorems give
    one iteration of the loop body on a name the prober found (the size it
    derives and the annotator call with total 250), and show
    that [findAruco] fails at the first [read], that the script then dies
    unpacking its result, and, for any capture object whose frames are
    images, that the loop never gets past its first iteration. *)

From S2P Require Import Prelude Py Base64 Catalog Vision Prober Annotator.

Local Open Scope Z_scope.
Local Open Scope se_scope.

(** The methods [cap.read()] and [cap.release()]: [read] gives the next
    frame as a fresh image object, or [None] (with [success == False]). *)
Class Capture (C : Type) := {
  cap_read : C -> M (option positive);
  cap_release : C -> M unit
}.

(** What [cv2.imread] returns: an image array or [None]; neither has a
    [read] or [release] attribute. *)
Definition type_name (cap : option positive) : string :=
  match cap with None => "NoneType" | Some _ => "numpy.ndarray" end.

#[export] Instance imread_capture : Capture (option positive) := {
  cap_read cap := throw AttributeError
                    ("'" ++ type_name cap ++ "' object has no attribute 'read'")%string;
  cap_release cap := throw AttributeError
                       ("'" ++ type_name cap ++ "' object has no attribute 'release'")%string
}.

(** [cv2.waitKey(delay)]: the next key pressed, or [-1]. *)
Definition waitKey (delay : Z) : M Z :=
  w <- se_get ;;
  match w_keys w with
  | k :: ks => se_modify (set_keys ks) ;;; se_ret k
  | [] => se_ret (-1)
  end.

(** Line 111: [size = (types[0].split("_")[1]).split("X")[0]], then the
    [print] of line 112. *)
Definition derive_size (types : list string) : M string :=
  t0 <- py_getitem types 0 ;;
  parts <- py_split t0 "_" ;;
  p1 <- py_getitem parts 1 ;;
  parts' <- py_split p1 "X" ;;
  s <- py_getitem parts' 0 ;;
  print [PStr "Size:"; PStr s] ;;;
  se_ret s.

(** How the loop body or the loop ends. *)
Inductive loop_exit :=
| LBreak (size : option string) (resp : option pyval)
| LReturn (t : tuple)
| LFuel.

Section Driver.
Context `{Cv2}.
Variable has_encodestring : bool.

(** Lines 106-116, for the frame [img]: [size] is the variable of the
    function, bound by an earlier iteration or not at all. *)
Definition frame_step (self : Aruco) (img : positive) (size : option string)
  : M (tuple + (option string * pyval)) :=
  r <- at_line 106 (findArucoTYPE self img) ;;
  st <- at_line 106 (unpack2 r) ;;
  let '(status, types) := st in
  if negb status then se_ret (inl [PBool false; PStr "Internal error"; PInt 500]) else
  size' <- (match types with
            | [] => se_ret size
            | _ => s <- at_line 111 (derive_size types) ;; se_ret (Some s)
            end) ;;
  s <- at_line 114 (match size' with
                    | Some s => se_ret s
                    | None => throw UnboundLocalError
                                "local variable 'size' referenced before assignment"
                    end) ;;
  r2 <- at_line 114 (findArucoMarkers has_encodestring img (SStr s) (SInt 250) true) ;;
  st2 <- at_line 114 (unpack2 r2) ;;
  let '(status2, resp) := st2 in
  if negb status2 then se_ret (inl [PBool false; PStr "Internal error"; PInt 500])
  else se_ret (inr (size', resp)).

(** The [while True] loop of lines 100-120, with [fuel] iterations at
    most; [size] and [resp] are the function's variables. *)
Fixpoint aruco_loop {C} `{Capture C} (fuel : nat) (self : Aruco) (cap : C)
         (size : option string) (resp : option pyval) : M loop_exit :=
  match fuel with
  | O => se_ret LFuel
  | S f =>
      fr <- at_line 101 (cap_read cap) ;;
      print [PStr "Read Success:"; PBool (bool_decide (is_Some fr))] ;;;
      match fr with
      | None => se_ret (LBreak size resp)
      | Some img =>
          st <- frame_step self img size ;;
          match st with
          | inl t => se_ret (LReturn t)
          | inr (size', r) =>
              k <- at_line 118 (waitKey 30) ;;
              if Z.land k 255 =? 94 then se_ret (LBreak size' (Some r))
              else aruco_loop f self cap size' (Some r)
          end
      end
  end.

(** [cv2.imread(path)]: a fresh image object, or [None] when the file is
    missing or does not decode. *)
Definition imread (path : string) : M (option positive) :=
  w <- se_get ;;
  match w_fs w !! path ≫= cv_imdecode with
  | Some a => p <- alloc a ;; se_ret (Some p)
  | None => se_ret None
  end.

(** [findAruco(self, path)]; [None] when the loop has not ended within
    [fuel] iterations. *)
Definition findAruco (fuel : nat) (self : Aruco) (path : string) : M (option tuple) :=
  try_except
    (cap <- at_line 98 (imread path) ;;
     ex <- aruco_loop fuel self cap None None ;;
     match ex with
     | LFuel => se_ret None
     | LReturn t => se_ret (Some t)
     | LBreak _ resp =>
         at_line 121 (cap_release cap) ;;;
         r <- at_line 123 (match resp with
                           | Some r => se_ret r
                           | None => throw UnboundLocalError
                                       "local variable 'resp' referenced before assignment"
                           end) ;;
         se_ret (Some [PBool true; r; PInt 200])
     end)
    (fun r => print_exc_info r ;;; se_ret (Some [PBool false; PStr "Internal error"])).

(** Lines 131-135. *)
Definition main (fuel : nat) : M (option unit) :=
  let aruco_obj := Aruco_init in
  r <- at_line 132 (findAruco fuel aruco_obj "images\padded.png") ;;
  match r with
  | None => se_ret None
  | Some t =>
      x <- at_line 132 (unpack3 t) ;;
      let '(status, response, code) := x in
      print [PStr "Status:"; status] ;;;
      print [PStr "Response:"; response] ;;;
      print [PStr "Code:"; code] ;;;
      se_ret (Some tt)
  end.

End Driver.

(** A test double for the loop, used by the witnesses. *)
(** A capture object whose [read()] always returns a fresh copy of the
    frame [a], as a camera pointed at a still scene would. *)
#[export] Instance toy_capture : Capture ndarray := {
  cap_read a := p <- alloc a ;; se_ret (Some p);
  cap_release _ := se_ret tt
}.

(** ** Lemmas *)

Lemma keeps_heap_derive_size types : keeps_heap (derive_size types).
Proof. unfold derive_size. keeps_heap_solve. Qed.

(** Line 111 on each catalogue name: the size printed and returned, and
    the dictionary [getattr(cv2.aruco, f"DICT_{size}X{size}_250")] it
    leads to. *)
Lemma derive_size_entry name d w :
  In (name, d) (ARUCO_DICT Aruco_init) ->
  exists s,
    derive_size [name] w = (inr s, set_out (w_out w ++ [[PStr "Size:"; PStr s]]) w) /\
    match dict_grid d with
    | Some (n, _) =>
        s = py_str_int n /\
        exists d', aruco_getattr (aruco_key (SStr s) (SInt 250)) = inr d' /\
                   dict_grid d' = Some (n, 250)
    | None => exists e, aruco_getattr (aruco_key (SStr s) (SInt 250)) = inl e
    end.
Proof.
  intros Hin. vm_compute in Hin.
  repeat (destruct Hin as [Hin|Hin]; [injection Hin as <- <-;
          eexists; split; [reflexivity | vm_compute; eauto]|]).
  done.
Qed.

Section DriverLemmas.
Context `{Cv2Laws}.
Variable has_encodestring : bool.

(** The prober returns a value and only prints. *)
Lemma findArucoTYPE_heap self img a w :
  w_heap w !! img = Some a ->
  exists o w1, findArucoTYPE self img w = (inr o, w1) /\ w_heap w1 = w_heap w.
Proof.
  intros Ha. destruct (probe_spec_total a (ARUCO_DICT self)) as [o Ho].
  unfold findArucoTYPE. rewrite (probe_items_spec img a _ o w Ha Ho).
  destruct o; cbn; eauto.
Qed.

(** A frame whose image is not 1-D never lets the loop go on: the body
    returns the 500 tuple or raises. *)
Lemma frame_step_stops self img size a w r w' :
  w_heap w !! img = Some a -> length (nd_shape a) <> 1%nat ->
  frame_step has_encodestring self img size w = (inr r, w') ->
  r = inl [PBool false; PStr "Internal error"; PInt 500].
Proof.
  intros Ha Hn. unfold frame_step, at_line.
  destruct (findArucoTYPE_heap self img a w Ha) as (o & w1 & E1 & Hw1).
  rewrite (se_bind_ok _ _ _ _ _ (se_catch_ok _ _ _ _ _ E1)).
  destruct o as [[status types]|]; cbn -[derive_size findArucoMarkers]; [|done].
  destruct status; cbn -[derive_size findArucoMarkers]; [|by intros [= <-]].
  se_step E2 size' w2; [done|].
  assert (Hw2 : w_heap w2 = w_heap w).
  { rewrite <- Hw1. destruct types; [by injection E2 as _ <-|].
    revert E2. se_step E s0 w3; intros [= _ <-].
    exact (keeps_heap_apply _ _ _ _ (keeps_heap_at_line 111 _ (keeps_heap_derive_size _)) E). }
  destruct size' as [s|]; cbn -[derive_size findArucoMarkers]; [|done].
  destruct (findArucoMarkers has_encodestring img (SStr s) (SInt 250) true w2)
    as [[e|r2] w3] eqn:E3.
  { erewrite se_bind_err; [done|]. by rewrite (se_catch_err _ _ _ _ _ E3). }
  rewrite (se_bind_ok _ _ _ _ _ (se_catch_ok _ _ _ _ _ E3)).
  destruct r2 as [[[|] resp]|]; cbn; [|by intros [= <-]|done].
  exfalso. eapply (findArucoMarkers_not_true has_encodestring img a); [|done|exact E3].
  by rewrite Hw2.
Qed.
End DriverLemmas.

(** ** Properties *)

Section DriverProperties.
Context `{Cv2}.
Variable has_encodestring : bool.

(** C9: [findAruco] never gets past the first [cap.read()]: whatever the
    file system holds, [cv2.imread] returns an array or [None], neither has
    a [read] method, the [AttributeError] of line 101 is caught by the
    outer handler, and the function returns the two-element tuple
    [(False, "Internal error")] (not a triple), having printed only the
    exception's type, file and line. *)
Theorem findAruco_fails_at_read fuel self path w :
  exists heap,
    findAruco has_encodestring (S fuel) self path w =
    (inr (Some [PBool false; PStr "Internal error"]),
     World (w_out w ++ [[PExcType AttributeError; PStr "app.py"; PInt 101]])
           (w_fs w) heap (w_keys w)).
Proof.
  unfold findAruco, imread. py_unfold.
  destruct (w_fs w !! path ≫= cv_imdecode); cbn; by eexists.
Qed.

(** C10: the script of lines 131-135 never prints its results: it dies
    with the uncaught [ValueError] "not enough values to unpack (expected
    3, got 2)" at line 132, after [findAruco] printed the exception of line
    101; the spec's "the Driver always completes and prints a result" does
    not hold. *)
Theorem main_crashes fuel w :
  exists heap,
    main has_encodestring (S fuel) w =
    (inl (Raised (Exn ValueError "not enough values to unpack (expected 3, got 2)") 132),
     World (w_out w ++ [[PExcType AttributeError; PStr "app.py"; PInt 101]])
           (w_fs w) heap (w_keys w)).
Proof.
  unfold main, findAruco, imread. py_unfold.
  destruct (w_fs w !! _ ≫= cv_imdecode); cbn; by eexists.
Qed.

(** The annotator on a key that [cv2.aruco] does not have: the
    [AttributeError] of line 61 is caught, and it returns
    [(False, "Internal error")]. *)
Lemma findArucoMarkers_bad_key img m t draw w e :
  aruco_getattr (aruco_key m t) = inl e ->
  exists w', findArucoMarkers has_encodestring img m t draw w
             = (inr (Some (false, PStr "Internal error")), w').
Proof.
  intros He. unfold findArucoMarkers. py_unfold.
  destruct (w_heap w !! img) as [a|]; cbn; [|by eexists].
  destruct (cv_cvtColor_BGR2GRAY a); cbn; [by eexists|]. rewrite He. cbn. by eexists.
Qed.

(** C11: one iteration of the loop body (lines 106-116) when the prober
    reports the single catalogue entry [name]: for a square-grid
    dictionary [DICT_nXn_k] the body prints [Size:] and [str(n)] and calls
    the annotator with [markerSize = str(n)] and [totalMarkers = 250], the
    literal of line 114, whatever [k] the prober found, and the key
    [DICT_nXn_250] exists; the body's result is the annotator's, unpacked
    at line 114. For ArUco original and the AprilTag families the derived
    size is a word, the annotator's lookup fails, and the body returns the
    500 tuple. *)
Theorem frame_step_found self img size w w1 name d :
  findArucoTYPE self img w = (inr (Some (true, [name])), w1) ->
  In (name, d) (ARUCO_DICT Aruco_init) ->
  match dict_grid d with
  | Some (n, _) =>
      (exists d250, aruco_getattr (aruco_key (SStr (py_str_int n)) (SInt 250)) = inr d250 /\
                    dict_grid d250 = Some (n, 250)) /\
      frame_step has_encodestring self img size w =
        match findArucoMarkers has_encodestring img (SStr (py_str_int n)) (SInt 250) true
                (set_out (w_out w1 ++ [[PStr "Size:"; PStr (py_str_int n)]]) w1) with
        | (inl e, w3) => (inl (Raised (r_exn e) 114), w3)
        | (inr None, w3) =>
            (inl (Raised (Exn TypeError "cannot unpack non-iterable NoneType object") 114), w3)
        | (inr (Some (false, _)), w3) => (inr (inl [PBool false; PStr "Internal error"; PInt 500]), w3)
        | (inr (Some (true, resp)), w3) => (inr (inr (Some (py_str_int n), resp)), w3)
        end
  | None =>
      exists w', frame_step has_encodestring self img size w
                 = (inr (inl [PBool false; PStr "Internal error"; PInt 500]), w')
  end.
Proof.
  intros E1 Hin. destruct (derive_size_entry name d w1 Hin) as (s & Hs & Hd).
  unfold frame_step, at_line.
  rewrite (se_bind_ok _ _ _ _ _ (se_catch_ok _ _ _ _ _ E1)). cbn -[derive_size findArucoMarkers].
  destruct (dict_grid d) as [[n k]|].
  - destruct Hd as [-> Hd]. split; [exact Hd|].
    unfold se_bind at 1 2 3; unfold se_catch at 1; rewrite Hs. cbn -[findArucoMarkers].
    se_call F r2 w3; cbn; [done|].
    destruct r2 as [[[|] resp]|]; done.

  - destruct Hd as [e He]. destruct (findArucoMarkers_bad_key img (SStr s) (SInt 250) true
      (set_out (w_out w1 ++ [[PStr "Size:"; PStr s]]) w1) e He) as [w3 Hw3].
    unfold se_bind at 1 2 3; unfold se_catch at 1; rewrite Hs. cbn -[findArucoMarkers].
    unfold se_bind at 1; unfold se_catch at 1; rewrite Hw3. cbn. by eexists.
Qed.
End DriverProperties.

Lemma frame_step_found_witness :
  let w1 := (findArucoTYPE Aruco_init 1 (toy_world (toy_image 5))).2 in
  findArucoTYPE Aruco_init 1 (toy_world (toy_image 5)) = (inr (Some (true, ["DICT_5X5_100"])), w1) /\
  In ("DICT_5X5_100", DICT_5X5_100) (ARUCO_DICT Aruco_init) /\
  match dict_grid DICT_5X5_100 with
  | Some (n, _) =>
      (exists d250, aruco_getattr (aruco_key (SStr (py_str_int n)) (SInt 250)) = inr d250 /\
                    dict_grid d250 = Some (n, 250)) /\
      frame_step true Aruco_init 1 None (toy_world (toy_image 5)) =
        match findArucoMarkers true 1 (SStr (py_str_int n)) (SInt 250) true
                (set_out (w_out w1 ++ [[PStr "Size:"; PStr (py_str_int n)]]) w1) with
        | (inl e, w3) => (inl (Raised (r_exn e) 114), w3)
        | (inr None, w3) =>
            (inl (Raised (Exn TypeError "cannot unpack non-iterable NoneType object") 114), w3)
        | (inr (Some (false, _)), w3) => (inr (inl [PBool false; PStr "Internal error"; PInt 500]), w3)
        | (inr (Some (true, resp)), w3) => (inr (inr (Some (py_str_int n), resp)), w3)
        end
  | None =>
      exists w', frame_step true Aruco_init 1 None (toy_world (toy_image 5))
                 = (inr (inl [PBool false; PStr "Internal error"; PInt 500]), w')
  end.
Proof.
  intros w1.
  assert (E : findArucoTYPE Aruco_init 1 (toy_world (toy_image 5))
              = (inr (Some (true, ["DICT_5X5_100"])), w1)).
  { subst w1. destruct (findArucoTYPE _ _ _) as [r w] eqn:E.
    apply (f_equal fst) in E. vm_compute in E. by subst r. }
  assert (Hin : In ("DICT_5X5_100", DICT_5X5_100) (ARUCO_DICT Aruco_init)).
  { vm_compute. do 5 right. left. reflexivity. }
  split; [exact E|]. split; [exact Hin|].
  exact (frame_step_found true Aruco_init 1 None _ _ _ _ E Hin).
Defined.

(** ** The loop, for any capture object *)

Section AnyCapture.
Context `{Cv2Laws}.
Variable has_encodestring : bool.
Context {C : Type} `{Capture C}.

(** C15: even with a capture object whose [read()] works (a
    [cv2.VideoCapture], unlike what [cv2.imread] returns), the loop of lines
    100-120 never gets to [cv2.waitKey] and never produces a response: as
    long as the frames are images (not 1-D arrays), the first iteration
    either breaks with the variables as they were (no frame), or returns
    [(False, "Internal error", 500)]: the annotator cannot succeed, and when
    the prober finds nothing, the unpacking of line 106 raises. *)
Theorem aruco_loop_stops fuel self (cap : C) size resp w r w' :
  (forall w0 p w1, cap_read cap w0 = (inr (Some p), w1) ->
                   exists a, w_heap w1 !! p = Some a /\ length (nd_shape a) <> 1%nat) ->
  aruco_loop has_encodestring (S fuel) self cap size resp w = (inr r, w') ->
  r = LBreak size resp \/ r = LReturn [PBool false; PStr "Internal error"; PInt 500].
Proof.
  intros Hframes. cbn [aruco_loop]. unfold at_line.
  se_call E1 fr w1; [done|]. unfold print. cbn -[frame_step aruco_loop].
  destruct fr as [p|]; [|intros [= <-]; by left].
  destruct (Hframes _ _ _ E1) as (a & Ha & Hn).
  se_step E2 st w2; [done|].
  rewrite (frame_step_stops has_encodestring self p size a (set_out _ w1) st w2 Ha Hn E2).
  intros [= <-]. by right.
Qed.
(** C17: the [while True] loop terminates: for any capture object whose
    frames are images, running it with any number [S fuel] of iterations
    allowed gives the same result, exceptions and world included, as
    running it with one, and that result is never the out-of-fuel marker:
    one iteration decides the loop. *)
Theorem aruco_loop_terminates fuel self (cap : C) size resp w :
  (forall w0 p w1, cap_read cap w0 = (inr (Some p), w1) ->
                   exists a, w_heap w1 !! p = Some a /\ length (nd_shape a) <> 1%nat) ->
  aruco_loop has_encodestring (S fuel) self cap size resp w
  = aruco_loop has_encodestring 1 self cap size resp w /\
  (aruco_loop has_encodestring 1 self cap size resp w).1 <> inr LFuel.
Proof.
  intros Hframes. cbn [aruco_loop]. unfold at_line.
  destruct (cap_read cap w) as [[e|fr] w1] eqn:E1.
  { erewrite !(se_bind_err _ _ w); [done| by rewrite (se_catch_err _ _ _ _ _ E1) ..]. }
  rewrite !(se_bind_ok _ _ w fr w1 (se_catch_ok _ _ _ _ _ E1)).
  unfold print. cbn -[frame_step aruco_loop].
  destruct fr as [p|]; [|done].
  destruct (Hframes _ _ _ E1) as (a & Ha & Hn).
  set (w1' := set_out _ w1).
  destruct (frame_step has_encodestring self p size w1') as [[e|st] w2] eqn:E2.
  { by rewrite !(se_bind_err _ _ _ _ _ E2). }
  rewrite !(se_bind_ok _ _ _ _ _ E2).
  by rewrite (frame_step_stops has_encodestring self p size a w1' st w2 Ha Hn E2).
Qed.
End AnyCapture.

(** ** Witnesses on the test double *)


Lemma toy_capture_frames a w0 p w1 :
  cap_read a w0 = (inr (Some p), w1) -> w_heap w1 !! p = Some a.
Proof. cbn. unfold alloc. py_unfold. intros [= <- <-]. cbn. apply lookup_insert_eq. Qed.

(** A frame showing a [DICT_5X5_250] marker: the prober reports it, the
    annotator fails at line 86, and the loop returns the 500 tuple. *)
Lemma aruco_loop_stops_witness :
  exists w',
    aruco_loop true 3 Aruco_init (toy_image 6) None None (toy_world (toy_image 6))
    = (inr (LReturn [PBool false; PStr "Internal error"; PInt 500]), w') /\
    (LReturn [PBool false; PStr "Internal error"; PInt 500] = LBreak None None \/
     LReturn [PBool false; PStr "Internal error"; PInt 500]
     = LReturn [PBool false; PStr "Internal error"; PInt 500]).
Proof.
  eexists. split; [vm_compute; reflexivity|].
  eapply (aruco_loop_stops true 2 Aruco_init (toy_image 6) None None (toy_world (toy_image 6))).
  - intros w0 p w1 E. exists (toy_image 6). split; [exact (toy_capture_frames _ _ _ _ E) | cbn; lia].
  - vm_compute. reflexivity.
Defined.

Lemma aruco_loop_terminates_witness :
  aruco_loop true 7 Aruco_init (toy_image 6) None None (toy_world (toy_image 6))
  = aruco_loop true 1 Aruco_init (toy_image 6) None None (toy_world (toy_image 6)) /\
  (aruco_loop true 1 Aruco_init (toy_image 6) None None (toy_world (toy_image 6))).1
  <> inr LFuel.
Proof.
  apply (aruco_loop_terminates true 6 Aruco_init (toy_image 6) None None).
  intros w0 p w1 E. exists (toy_image 6). split; [exact (toy_capture_frames _ _ _ _ E) | cbn; lia].
Defined.
