(* ===== verification/Codec.v ===== *)
(** * The codec snippet: [image_encode_decode/encode_decode.py]

    The script (lines 10-25) reads [/images/nature.jpeg], encodes its bytes
    with [base64.encodebytes], prints the encoding, decodes it with
    [base64.decodebytes], opens [/images/new_scenary.jpg] for writing and
    prints the number of bytes [write] reports.  No exception is caught: one
    ends the script with its traceback.

    [encode_decode] is the script as one computation of the Python world;
    its theorems say what it leaves in the file system and on standard
    output, on every input file and when the input file is missing. *)

From S2P Require Import Prelude Py Base64.

Local Open Scope Z_scope.
Local Open Scope se_scope.

(** The proofs below rewrite with the base64 theorems, not by unfolding. *)
#[local] Arguments encode_lines : simpl never.
#[local] Arguments a2b_base64 : simpl never.

Definition image_path : string := "/images/nature.jpeg".
Definition result_path : string := "/images/new_scenary.jpg".

(** Lines 10-25; line 12 is an expression statement with no effect. *)
Definition encode_decode : M unit :=
  image_read <- at_line 10 (read_file image_path) ;;
  image_64_encode <- at_line 15 (lift (encodebytes (BufBytes image_read))) ;;
  print [PStr "Image to Encoded string:"; PBytes image_64_encode] ;;;
  image_64_decode <- at_line 19 (lift (decodebytes (BufBytes image_64_encode))) ;;
  at_line 22 (open_write result_path) ;;;
  n <- at_line 25 (write_file result_path image_64_decode) ;;
  print [PStr "The size of the decoded image:"; PInt n].

(** A world with the file system [fs] and nothing else, for the witnesses. *)
Definition codec_world (fs : gmap string (list Z)) : world := World [] fs ∅ [].

(** ** Properties *)

Lemma encodebytes_bytes bs : encodebytes (BufBytes bs) = inr (encode_lines bs).
Proof. reflexivity. Qed.

Lemma decodebytes_bytes s : decodebytes (BufBytes s) = a2b_base64 s.
Proof. reflexivity. Qed.

(** The whole run of the script on a byte string. *)
Lemma encode_decode_run bs w :
  w_fs w !! image_path = Some bs -> bytes_ok bs ->
  encode_decode w =
  (inr tt,
   World (w_out w ++ [[PStr "Image to Encoded string:"; PBytes (encode_lines bs)];
                      [PStr "The size of the decoded image:"; PInt (Z.of_nat (length bs))]])
         (<[result_path := bs]> (w_fs w)) (w_heap w) (w_keys w)).
Proof.
  intros Hin Hok. unfold encode_decode, read_file, open_write, write_file.
  py_unfold. rewrite Hin. cbn. rewrite encodebytes_bytes. cbn.
  rewrite decodebytes_bytes. unfold a2b_base64. rewrite (a2b_encode_lines bs [] Hok).
  cbn. rewrite lookup_insert. cbn. by rewrite insert_insert, <- app_assoc.
Qed.

(** C12: the script copies the input file: on any byte string [bs] in
    [/images/nature.jpeg], it prints the base64 encoding of [bs], writes
    exactly [bs] to [/images/new_scenary.jpg] (replacing what was there),
    prints [len(bs)] as the size written, and ends normally. *)
Theorem encode_decode_roundtrip bs w :
  w_fs w !! image_path = Some bs -> bytes_ok bs ->
  encode_decode w =
  (inr tt,
   World (w_out w ++ [[PStr "Image to Encoded string:"; PBytes (encode_lines bs)];
                      [PStr "The size of the decoded image:"; PInt (Z.of_nat (length bs))]])
         (<[result_path := bs]> (w_fs w)) (w_heap w) (w_keys w)).
Proof. apply encode_decode_run. Qed.

(** C13: when [/images/nature.jpeg] is missing, the [open] of line 10 raises
    [FileNotFoundError], nothing is printed and no file is written. *)
Theorem encode_decode_missing w :
  w_fs w !! image_path = None ->
  encode_decode w =
  (inl (Raised (Exn FileNotFoundError
                  "[Errno 2] No such file or directory: '/images/nature.jpeg'") 10), w).
Proof. intros Hin. unfold encode_decode, read_file. py_unfold. by rewrite Hin. Qed.

(** ** Witnesses *)


Lemma encode_decode_roundtrip_witness :
  encode_decode (codec_world {[image_path := [255; 216; 255; 0; 7]]}) =
  (inr tt,
   World ([] ++ [[PStr "Image to Encoded string:"; PBytes (encode_lines [255; 216; 255; 0; 7])];
                 [PStr "The size of the decoded image:"; PInt 5]])
         (<[result_path := [255; 216; 255; 0; 7]]> {[image_path := [255; 216; 255; 0; 7]]}) ∅ []).
Proof.
  apply (encode_decode_roundtrip [255; 216; 255; 0; 7] (codec_world _));
    [reflexivity | repeat constructor; lia].
Defined.

Lemma encode_decode_missing_witness :
  encode_decode (codec_world ∅) =
  (inl (Raised (Exn FileNotFoundError
                  "[Errno 2] No such file or directory: '/images/nature.jpeg'") 10),
   codec_world ∅).
Proof. apply encode_decode_missing. reflexivity. Defined.

