(* ===== verification/Reporting.v ===== *)
(** * What the [except] branches can report

    The three methods of [Aruco] wrap their bodies in [try ... except
    Exception], and the spec (section 7) says every error is caught at the
    method boundary and reported with its source location.  [se_spec Q R m]
    (in [Prelude]) says what [m] may return ([Q]) and raise ([R]);
    [raised_at lines] says an exception carries one of [lines] as its
    traceback line.  [spec_solve] proves such triples statement by
    statement: an [at_line l] statement raises only with line [l].

    [findArucoMarkers_reports]: the annotator never lets an exception out,
    and a failure is reported by one printed line naming a line of its
    [try] body.  [aruco_loop_raises]: an exception that leaves the loop of
    [findAruco], whatever the capture object, is one of five: an exception
    of [cap.read()] at line 101, a [TypeError] unpacking [None] at line 106
    or 114, an [IndexError] at line 111, the [UnboundLocalError] of [size]
    at line 114; since [at_line] relabels every exception of a call with
    the caller's line, the exception kinds, not the lines, are what shows
    that the prober and the annotator catch their own. *)

From S2P Require Import Prelude Py Base64 Catalog Vision Prober Annotator Driver.

Local Open Scope Z_scope.
Local Open Scope se_scope.

(** The exception's traceback line is one of [lines]. *)
Definition raised_at (lines : list Z) (r : raised) : Prop := r_line r ∈ lines.

(** What raises nothing can be said of any computation. *)
Lemma se_spec_any {A} (m : M A) : se_spec (fun _ => True) (fun _ => True) m.
Proof. intros w r w' _. by destruct r. Qed.

(** A statement at line [l] raises what its body raises, with line [l]. *)
Lemma se_spec_at_line {A} (Q : A -> Prop) R' (R : raised -> Prop) l (m : M A) :
  se_spec Q R' m -> (forall x, R' x -> R (Raised (r_exn x) l)) -> se_spec Q R (at_line l m).
Proof.
  intros Hm HR w r w'. unfold at_line, se_catch.
  destruct (m w) as [[e|a] w1] eqn:E; cbn.
  - intros [= <- _]. apply HR, (Hm _ _ _ E).
  - intros [= <- <-]. exact (Hm _ _ _ E).
Qed.

(** [try: m except Exception as e: h(e)]. *)
Lemma se_spec_try {A} (Q : A -> Prop) R' R (m : M A) h :
  se_spec Q R' m -> (forall e, R' e -> se_spec Q R (h e)) -> se_spec Q R (try_except m h).
Proof.
  intros Hm Hh w r w'. unfold try_except, se_catch.
  destruct (m w) as [[e|a] w1] eqn:E.
  - apply Hh, (Hm _ _ _ E).
  - intros [= <- <-]. exact (Hm _ _ _ E).
Qed.

Lemma se_spec_print R args : se_spec (fun _ => True) R (print args).
Proof. by apply se_spec_modify. Qed.

Lemma se_spec_throw {A} k msg :
  se_spec (A:=A) (fun _ => True) (fun e => r_exn e = Exn k msg) (throw k msg).
Proof. by apply se_spec_raise. Qed.

Lemma se_spec_unpack2 {A B} (v : option (A * B)) :
  se_spec (fun _ => True)
          (fun e => r_exn e = Exn TypeError "cannot unpack non-iterable NoneType object")
          (unpack2 v).
Proof. destruct v; [by apply se_spec_ret | apply se_spec_throw]. Qed.

Lemma se_spec_getitem {A} (l : list A) i :
  se_spec (fun _ => True) (fun e => exn_type (r_exn e) = IndexError) (py_getitem l i).
Proof. unfold py_getitem. case_match; [by apply se_spec_ret | by apply se_spec_raise]. Qed.

Lemma se_spec_split R s c sep :
  se_spec (fun _ => True) R (py_split s (String c sep)).
Proof. by apply se_spec_ret. Qed.

(** What the [except] branches of [app.py] can raise: nothing. *)
Lemma se_spec_handler {A} (v : A) r :
  se_spec (fun _ => True) (fun _ => False) (print_exc_info r ;;; se_ret v).
Proof. apply se_spec_bind; [apply se_spec_print | intros _; by apply se_spec_ret]. Qed.

(** Prove the side condition of [se_spec_at_line]. *)
Ltac spec_post :=
  let x := fresh "x" in let Hx := fresh "Hx" in
  intros x Hx; cbn in *; unfold raised_at in *;
  first [contradiction | by repeat constructor | naive_solver].

(** Prove a triple statement by statement; a statement at a line takes its
    own triple from the context or from the runtime's lemmas when there is
    one, and raises anything otherwise. *)
Ltac spec_solve :=
  repeat match goal with
    | |- se_spec _ _ (se_bind _ _) => apply se_spec_bind; [| intros ?]
    | |- se_spec _ _ (at_line _ _) =>
        eapply se_spec_at_line;
        [ first [ solve [eauto using se_spec_unpack2, se_spec_getitem, se_spec_throw]
                | apply (se_spec_ret _ (fun _ => False)); done
                | apply se_spec_any ]
        | spec_post ]
    | |- se_spec _ _ (try_except _ (fun r => print_exc_info r ;;; se_ret _)) =>
        eapply se_spec_try; [apply se_spec_any | intros ? _; apply se_spec_handler]
    | |- se_spec _ _ (print _) => apply se_spec_print
    | |- se_spec _ _ (se_ret _) => apply se_spec_ret; eauto
    | |- se_spec _ _ (py_getitem _ _) => apply se_spec_getitem
    | |- se_spec _ _ (py_split _ (String _ _)) => apply se_spec_split
    | |- se_spec _ _ (throw _ _) => apply se_spec_throw
    | |- se_spec _ _ (unpack2 _) => apply se_spec_unpack2
    | |- se_spec _ _ se_get => by apply se_spec_get
    | |- se_spec _ _ (se_modify _) => by apply se_spec_modify
    | H : _ |- se_spec _ _ _ => solve [apply H]
    | |- se_spec _ _ _ => progress case_match
    end.

Section Reports.
Context `{Cv2}.
Variable has_encodestring : bool.

(** C18: [findArucoMarkers] never lets an exception escape: it returns
    [None] or [(True, _)] from its body, or [(False, "Internal error")]
    after printing exactly one line [exc_type, "app.py", lineno] whose line
    number is one of the statements of its [try] body (60-64, 67, 71, 74,
    82, 83, 86). *)
Theorem findArucoMarkers_reports img markerSize totalMarkers draw w :
  match findArucoMarkers has_encodestring img markerSize totalMarkers draw w with
  | (inl _, _) => False
  | (inr None, _) | (inr (Some (true, _)), _) => True
  | (inr (Some (false, v)), w') =>
      v = PStr "Internal error" /\
      exists k l w1, w' = set_out (w_out w1 ++ [[PExcType k; PStr "app.py"; PInt l]]) w1 /\
                     l ∈ [60; 61; 62; 63; 64; 67; 71; 74; 82; 83; 86]
  end.
Proof.
  unfold findArucoMarkers, try_except, se_catch.
  match goal with |- context [match ?body w with _ => _ end] =>
    assert (Hb : se_spec (fun v => v = None \/ exists x, v = Some (true, x))
                         (raised_at [60; 61; 62; 63; 64; 67; 71; 74; 82; 83; 86]) body);
    [| destruct (body w) as [[e|v] w1] eqn:E; pose proof (Hb _ _ _ E) as Hr]
  end.
  - unfold draw_outlines, annotate_markers. spec_solve.
  - cbn. split; [done|]. eexists _, _, _. split; [done | exact Hr].
  - by destruct Hr as [-> | [x ->]].
Qed.
End Reports.

(** The exceptions that can leave the loop of [findAruco]: whatever
    [cap.read()] raises, at line 101; at line 106 only the [TypeError] of
    unpacking [None]; at line 111 only an [IndexError]; at line 114 only the
    [TypeError] of unpacking [None] or the [UnboundLocalError] of [size]. *)
Definition loop_raises (e : raised) : Prop :=
  r_line e = 101 \/
  (r_line e = 106 /\ r_exn e = Exn TypeError "cannot unpack non-iterable NoneType object") \/
  (r_line e = 111 /\ exn_type (r_exn e) = IndexError) \/
  (r_line e = 114 /\
     (r_exn e = Exn TypeError "cannot unpack non-iterable NoneType object" \/
      r_exn e = Exn UnboundLocalError "local variable 'size' referenced before assignment")).

Section LoopReports.
Context `{Cv2}.
Variable has_encodestring : bool.
Context {C : Type} `{Capture C}.

(** The prober and the annotator catch everything. *)
Lemma findArucoTYPE_no_raise self img :
  se_spec (fun _ => True) (fun _ => False) (findArucoTYPE self img).
Proof. unfold findArucoTYPE. spec_solve. Qed.

Lemma findArucoMarkers_no_raise img m t draw :
  se_spec (fun _ => True) (fun _ => False) (findArucoMarkers has_encodestring img m t draw).
Proof. unfold findArucoMarkers. spec_solve. Qed.

Lemma derive_size_raises types :
  se_spec (fun _ => True) (fun e => exn_type (r_exn e) = IndexError) (derive_size types).
Proof. unfold derive_size. spec_solve. Qed.

Lemma waitKey_no_raise d : se_spec (fun _ => True) (fun _ => False) (waitKey d).
Proof. unfold waitKey. spec_solve. Qed.

Lemma frame_step_raises self img size :
  se_spec (fun _ => True) loop_raises (frame_step has_encodestring self img size).
Proof.
  unfold frame_step.
  pose proof (findArucoTYPE_no_raise self img).
  pose proof (findArucoMarkers_no_raise img).
  pose proof derive_size_raises.
  spec_solve.
Qed.

(** C19: what can go wrong in the loop of [findAruco], for any capture
    object and any OpenCV: an exception leaving it is the exception of
    [cap.read()] at line 101, the [TypeError] of unpacking [None] at line
    106 (the prober found nothing), an [IndexError] deriving the size at
    line 111, or, at line 114, the [TypeError] of unpacking [None] (the
    annotator found nothing) or the [UnboundLocalError] of [size].  No
    exception of the prober, the annotator or [cv2.waitKey] gets out. *)
Theorem aruco_loop_raises fuel self (cap : C) size resp w e w' :
  aruco_loop has_encodestring fuel self cap size resp w = (inl e, w') -> loop_raises e.
Proof.
  revert size resp w e w'. induction fuel as [|f IH]; intros size resp w e w'; [done|].
  assert (Hs : forall size resp,
             se_spec (fun _ => True) loop_raises (aruco_loop has_encodestring (S f) self cap size resp)).
  { intros size' resp'. cbn [aruco_loop].
    pose proof (frame_step_raises self). pose proof (waitKey_no_raise 30).
    spec_solve.
    intros w0 r w1 E. destruct r; [exact (IH _ _ _ _ _ E) | done]. }
  intros E. exact (Hs size resp _ _ _ E).
Qed.
End LoopReports.

(** ** Witness *)

(** A [DICT_5X5_100] marker: the prober finds it, the annotator looks for
    [DICT_5X5_250] markers, finds none and returns [None], and the
    unpacking of line 114 raises [TypeError]. *)
Lemma aruco_loop_raises_witness :
  exists w',
    aruco_loop true 1 Aruco_init (toy_image 5) None None (toy_world (toy_image 5))
    = (inl (Raised (Exn TypeError "cannot unpack non-iterable NoneType object") 114), w') /\
    loop_raises (Raised (Exn TypeError "cannot unpack non-iterable NoneType object") 114).
Proof.
  destruct (aruco_loop true 1 Aruco_init (toy_image 5) None None (toy_world (toy_image 5)))
    as [r w'] eqn:E.
  assert (Hr : r = inl (Raised (Exn TypeError "cannot unpack non-iterable NoneType object") 114)).
  { apply (f_equal fst) in E. vm_compute in E. by rewrite <- E. }
  subst r. exists w'. split; [done|]. exact (aruco_loop_raises true 1 Aruco_init _ _ _ _ _ _ E).
Defined.
